(** * Chat server with cached exchange-rate tables: model of [server/main.py]

    The development embeds the Python program shallowly:
    - Python [str] values are [string]s; the character classes used by
      [split], [lower], [upper] and [isdigit] are the ASCII ones, and what is
      proved about the parsing of a line is stated for lines of ASCII
      characters;
    - values decoded by [json] are the inductive type [json], dictionaries
      being association lists in insertion order;
    - exceptions are the error side of [result];
    - [DataFetcher] and [Server] methods are state-passing functions over
      records holding the fields of the objects together with the durable
      cache file and the observable traces (requests issued, messages sent);
    - what other tasks do while a broadcast is suspended in a send is given
      by an environment of events; two interleaved calls of [get_exchanges]
      are composed from the steps of the method.
*)

From Stdlib Require Import ZArith List String Ascii Bool Lia Arith.
From Stdlib Require Import DecimalString.
Import ListNotations.

Local Open Scope string_scope.
Local Open Scope Z_scope.

(** ** Exceptions and results *)

Inductive exn : Type :=
| HttpError (args : list string)
| KeyError
| TypeError
| ValueError
| AttributeError
| OverflowError
| JSONDecodeError
| ContentTypeError
| ServerDisconnectedError
| TimeoutError
| ConnectionClosedOK
| ConnectionClosedError
| RuntimeError.

Inductive result (A : Type) : Type :=
| Ok (a : A)
| Raise (e : exn).

Arguments Ok {A} a.
Arguments Raise {A} e.


(** ** Python strings *)

Module PyStr.

Definition code (c : ascii) : nat := nat_of_ascii c.

(** Whitespace as seen by [str.split()] and [str.isspace()]. *)
Definition isspace (c : ascii) : bool :=
  let n := code c in
  (((9 <=? n) && (n <=? 13)) || ((28 <=? n) && (n <=? 32)))%nat.

Definition isdigit_char (c : ascii) : bool :=
  let n := code c in ((48 <=? n) && (n <=? 57))%nat.

Definition lower_char (c : ascii) : ascii :=
  let n := code c in
  if ((65 <=? n) && (n <=? 90))%nat then ascii_of_nat (n + 32) else c.

Definition upper_char (c : ascii) : ascii :=
  let n := code c in
  if ((97 <=? n) && (n <=? 122))%nat then ascii_of_nat (n - 32) else c.

Fixpoint map_chars (f : ascii -> ascii) (s : string) : string :=
  match s with
  | EmptyString => EmptyString
  | String c s' => String (f c) (map_chars f s')
  end.

Definition lower : string -> string := map_chars lower_char.
Definition upper : string -> string := map_chars upper_char.

Fixpoint all_chars (p : ascii -> bool) (s : string) : bool :=
  match s with
  | EmptyString => true
  | String c s' => p c && all_chars p s'
  end.

(** [s.isdigit()]: at least one character and every character a digit. *)
Definition isdigit (s : string) : bool :=
  match s with
  | EmptyString => false
  | _ => all_chars isdigit_char s
  end.

Definition digit_value (c : ascii) : Z := Z.of_nat (code c) - 48.

Fixpoint int_acc (acc : Z) (s : string) : Z :=
  match s with
  | EmptyString => acc
  | String c s' => int_acc (10 * acc + digit_value c) s'
  end.

(** The interpreter's limit on the number of digits [int] converts. *)
Definition max_str_digits : nat := 4300.

(** [int(s)] for a string of decimal digits: a [ValueError] when the string
    has more than [max_str_digits] digits, and for anything that is not a
    string of digits. *)
Definition int (s : string) : result Z :=
  if isdigit s then
    if (max_str_digits <? String.length s)%nat then Raise ValueError
    else Ok (int_acc 0 s)
  else Raise ValueError.

Definition startswith (s p : string) : bool := String.prefix p s.

(** [s.split()]: maximal runs of non-whitespace characters. *)
Fixpoint split_from (cur : string) (s : string) : list string :=
  match s with
  | EmptyString =>
      match cur with EmptyString => [] | _ => [cur] end
  | String c s' =>
      if isspace c then
        match cur with
        | EmptyString => split_from EmptyString s'
        | _ => cur :: split_from EmptyString s'
        end
      else split_from (cur ++ String c EmptyString) s'
  end.

Definition split (s : string) : list string := split_from EmptyString s.

(** [sep.join(l)] *)
Fixpoint join (sep : string) (l : list string) : string :=
  match l with
  | [] => EmptyString
  | [x] => x
  | x :: rest => x ++ sep ++ join sep rest
  end.

(** [needle in hay] on strings. *)
Fixpoint contains (hay needle : string) : bool :=
  String.prefix needle hay ||
  match hay with
  | EmptyString => false
  | String _ hay' => contains hay' needle
  end.

(** Decimal numeral of a non-negative integer. *)
Definition decimal (n : Z) : string :=
  NilZero.string_of_uint (N.to_uint (Z.to_N n)).

Definition digit_char (n : Z) : ascii := ascii_of_nat (Z.to_nat (48 + n mod 10)).


End PyStr.

(** ** Decoded JSON values *)

(** A Python [float]: not-a-number, an infinity, or a finite value given
    exactly as the fraction [num / den]. *)
Inductive pyfloat : Type :=
| FNan
| FInf (negative : bool)
| FFin (num : Z) (den : positive).

#[local] Unset Elimination Schemes.
Inductive json : Type :=
| JNull
| JBool (b : bool)
| JInt (z : Z)
| JFloat (f : pyfloat)
| JStr (s : string)
| JList (l : list json)
| JDict (d : list (string * json)).
#[local] Set Elimination Schemes.

(** *** Dictionaries in insertion order *)

Fixpoint dict_get {V : Type} (k : string) (d : list (string * V)) : option V :=
  match d with
  | [] => None
  | (k', v) :: d' => if String.eqb k k' then Some v else dict_get k d'
  end.

Fixpoint dict_set {V : Type} (k : string) (v : V) (d : list (string * V))
  : list (string * V) :=
  match d with
  | [] => [(k, v)]
  | (k', v') :: d' =>
      if String.eqb k k' then (k, v) :: d' else (k', v') :: dict_set k v d'
  end.

Definition dict_has {V : Type} (k : string) (d : list (string * V)) : bool :=
  match dict_get k d with Some _ => true | None => false end.

Definition str_in (s : string) (l : list string) : bool :=
  existsb (String.eqb s) l.

Module Py.

(** Truth value of an object, as tested by [if x]. *)
Definition truthy (j : json) : bool :=
  match j with
  | JNull => false
  | JBool b => b
  | JInt z => negb (z =? 0)
  | JFloat (FFin n _) => negb (n =? 0)
  | JFloat _ => true
  | JStr s => negb (String.eqb s "")
  | JList l => match l with [] => false | _ => true end
  | JDict d => match d with [] => false | _ => true end
  end.

Definition eq_str (k : string) (j : json) : bool :=
  match j with JStr s => String.eqb k s | _ => false end.

(** [k in c] for a string [k]. *)
Definition contains (k : string) (c : json) : result bool :=
  match c with
  | JDict d => Ok (dict_has k d)
  | JList l => Ok (existsb (eq_str k) l)
  | JStr s => Ok (PyStr.contains s k)
  | _ => Raise TypeError
  end.

(** [c[k]] for a string [k]. *)
Definition getitem (c : json) (k : string) : result json :=
  match c with
  | JDict d => match dict_get k d with Some v => Ok v | None => Raise KeyError end
  | _ => Raise TypeError
  end.

(** [c[k] = v] for a string [k]; the updated object is returned. *)
Definition setitem (c : json) (k : string) (v : json) : result json :=
  match c with
  | JDict d => Ok (JDict (dict_set k v d))
  | _ => Raise TypeError
  end.

(** [x.get(k)]: only dictionaries have the method; an absent key gives
    [None]. *)
Definition get (x : json) (k : string) : result json :=
  match x with
  | JDict d => Ok (match dict_get k d with Some v => v | None => JNull end)
  | _ => Raise AttributeError
  end.

Fixpoint chars (s : string) : list json :=
  match s with
  | EmptyString => []
  | String c s' => JStr (String c EmptyString) :: chars s'
  end.

(** The elements visited by [for x in c]. *)
Definition iter (c : json) : result (list json) :=
  match c with
  | JList l => Ok l
  | JDict d => Ok (map (fun kv => JStr (fst kv)) d)
  | JStr s => Ok (chars s)
  | _ => Raise TypeError
  end.

(** *** Fixed-point formatting, [format(x, "0.2f")] *)

(** Nearest integer to [a / d], ties to the even one ([0 <= a], [0 < d]). *)
Definition round_half_even (a d : Z) : Z :=
  let q := a / d in
  let r := a mod d in
  if 2 * r <? d then q
  else if d <? 2 * r then q + 1
  else if Z.even q then q else q + 1.

(** [float(z)] for a Python [int]: exact below 2^53, otherwise rounded to
    53 significant bits, overflowing at 2^1024. *)
Definition float_of_int (z : Z) : result pyfloat :=
  let a := Z.abs z in
  let k := Z.log2 a - 52 in
  if k <=? 0 then Ok (FFin z 1)
  else
    let v := round_half_even a (2 ^ k) * 2 ^ k in
    if 2 ^ 1024 <=? v then Raise OverflowError
    else Ok (FFin (Z.sgn z * v) 1).

Definition fixed2 (num : Z) (den : positive) : string :=
  let centi := round_half_even (100 * Z.abs num) (Z.pos den) in
  ((if (num <? 0)%Z then "-" else "")
   ++ PyStr.decimal (centi / 100)
   ++ String "."
        (String (PyStr.digit_char (centi / 10))
           (String (PyStr.digit_char centi) EmptyString)))%string.

Definition format_float (f : pyfloat) : string :=
  match f with
  | FNan => "nan"
  | FInf false => "inf"
  | FInf true => "-inf"
  | FFin n d => fixed2 n d
  end.

Definition format_2f (x : json) : result string :=
  match x with
  | JFloat f => Ok (format_float f)
  | JInt z =>
      match float_of_int z with
      | Ok f => Ok (format_float f)
      | Raise e => Raise e
      end
  | JBool b => Ok (fixed2 (if b then 1 else 0) 1)
  | JStr _ => Raise ValueError
  | JNull | JList _ | JDict _ => Raise TypeError
  end.

End Py.

(** ** Calendar dates *)

Module Calendar.

Definition DI400Y : Z := 146097.
Definition DI100Y : Z := 36524.
Definition DI4Y : Z := 1461.

Definition days_before_month (m : Z) : Z :=
  nth (Z.to_nat m) [0; 0; 31; 59; 90; 120; 151; 181; 212; 243; 273; 304; 334] 0.

Definition days_in_month (m : Z) : Z :=
  nth (Z.to_nat m) [0; 31; 28; 31; 30; 31; 30; 31; 31; 30; 31; 30; 31] 0.

Definition b2z (b : bool) : Z := if b then 1 else 0.

(** Proleptic Gregorian ordinal (1 = 0001-01-01) to (year, month, day). *)
Definition ord2ymd (ordinal : Z) : Z * Z * Z :=
  let n := ordinal - 1 in
  let n400 := n / DI400Y in
  let n := n mod DI400Y in
  let year := n400 * 400 + 1 in
  let n100 := n / DI100Y in
  let n := n mod DI100Y in
  let n4 := n / DI4Y in
  let n := n mod DI4Y in
  let n1 := n / 365 in
  let n := n mod 365 in
  let year := year + n100 * 100 + n4 * 4 + n1 in
  if (n1 =? 4) || (n100 =? 4) then (year - 1, 12, 31)
  else
    let leapyear := (n1 =? 3) && (negb (n4 =? 24) || (n100 =? 3)) in
    let month := Z.shiftr (n + 50) 5 in
    let preceding := days_before_month month + b2z ((2 <? month) && leapyear) in
    if n <? preceding then
      let month := month - 1 in
      let preceding :=
        preceding - (days_in_month month + b2z ((month =? 2) && leapyear)) in
      (year, month, n - preceding + 1)
    else (year, month, n - preceding + 1).

Definition pad2 (n : Z) : string :=
  String (PyStr.digit_char (n / 10)) (String (PyStr.digit_char n) EmptyString).

(** [strftime("%d.%m.%Y")] of the date with the given ordinal. *)
Definition strftime (ordinal : Z) : string :=
  let '(y, m, d) := ord2ymd ordinal in
  (pad2 d ++ "." ++ pad2 m ++ "." ++ PyStr.decimal y)%string.

(** Ordinal of 1970-01-01. *)
Definition epoch : Z := 719163.

(** [(today - timedelta(days=i)).strftime("%d.%m.%Y")], where [now] counts the
    days from 1970-01-01 to the current local date.  Both the construction of
    the [timedelta] and the subtraction fail with [OverflowError] outside
    their ranges. *)
Definition date_string (now : N) (i : Z) : result string :=
  let o := epoch + Z.of_N now - i in
  if (999999999 <? i) || (o <? 1) then Raise OverflowError
  else Ok (strftime o).

End Calendar.


(** ** Monads for fallible, stateful code *)

Definition rbind {A B : Type} (r : result A) (k : A -> result B) : result B :=
  match r with
  | Ok a => k a
  | Raise e => Raise e
  end.

(** A computation over a state [S]: the state reached is kept when an
    exception is raised, since effects already performed are not undone. *)
Definition M (S A : Type) : Type := S -> result A * S.

Definition ret {S A : Type} (a : A) : M S A := fun s => (Ok a, s).

Definition raise {S A : Type} (e : exn) : M S A := fun s => (Raise e, s).

Definition bind {S A B : Type} (m : M S A) (k : A -> M S B) : M S B :=
  fun s =>
    match m s with
    | (Ok a, s') => k a s'
    | (Raise e, s') => (Raise e, s')
    end.

Definition lift {S A : Type} (r : result A) : M S A := fun s => (r, s).

Definition gets {S A : Type} (f : S -> A) : M S A := fun s => (Ok (f s), s).

Definition modify {S : Type} (f : S -> S) : M S unit := fun s => (Ok tt, f s).

Declare Scope monad_scope.
Delimit Scope monad_scope with monad.
Notation "x <- m ;; k" := (bind m (fun x => k))
  (at level 61, m at next level, right associativity) : monad_scope.
Notation "' p <- m ;; k" := (bind m (fun x => match x with p => k end))
  (at level 61, p pattern, m at next level, right associativity) : monad_scope.
Notation "m ;;; k" := (bind m (fun _ => k))
  (at level 61, right associativity) : monad_scope.

(** ** The data fetcher *)

Definition BASE_URL : string :=
  "https://api.privatbank.ua/p24api/exchange_rates?date=".

Definition ALL_CURRENCIES : list string :=
  ["SEK"; "DKK"; "GEL"; "CZK"; "TRY"; "KZT"; "ILS"; "AZN"; "JPY"; "CAD";
   "BYN"; "UAH"; "NOK"; "USD"; "CHF"; "CNY"; "MDL"; "HUF"; "XAU"; "EUR";
   "SGD"; "PLN"; "UZS"; "TMT"; "AUD"; "GBP"].

(** The body of a response, as [response.json()] finds it: decoded, of a
    content type that is not JSON, or of that content type but malformed. *)
Inductive body : Type :=
| Json (j : json)
| NotJson
| BadJson.

(** What a GET on a URL produces: a status with its body, a failure to
    connect, an invalid URL, a connection dropped by the server, or a
    timeout. *)
Inductive response : Type :=
| Status (code : Z) (b : body)
| ClientConnectorError (err : string)
| InvalidURL (err : string)
| ServerDisconnected
| TimedOut.

(** The file named by [cache_file]. *)
Inductive file : Type :=
| Missing
| Undecodable
| Content (j : json).

(** One row of a day's table. *)
Record rate : Type := mkRate { buy : string; sell : string; NBU : string }.

Definition rates : Type := list (string * rate).

(** A [DataFetcher] together with the file it caches in and the list of the
    URLs it has requested so far. *)
Record DataFetcher : Type := mkFetcher {
  base_url : string;
  currencies : list string;
  cache_file : file;
  requests : list string
}.

Definition set_currencies (l : list string) (f : DataFetcher) : DataFetcher :=
  mkFetcher (base_url f) l (cache_file f) (requests f).

Definition set_cache_file (c : file) (f : DataFetcher) : DataFetcher :=
  mkFetcher (base_url f) (currencies f) c (requests f).

Definition add_request (url : string) (f : DataFetcher) : DataFetcher :=
  mkFetcher (base_url f) (currencies f) (cache_file f) (requests f ++ [url]).

Definition init_fetcher (url : string) (c : file) : DataFetcher :=
  mkFetcher url ["USD"; "EUR"] c [].

(** [list.remove]: drops the first occurrence. *)
Fixpoint list_remove (x : string) (l : list string) : list string :=
  match l with
  | [] => []
  | y :: l' => if String.eqb x y then l' else y :: list_remove x l'
  end.

Definition current (l : list string) : string :=
  ("Current currencies: " ++ PyStr.join ", " l)%string.

Definition add_currency (currency : string) : M DataFetcher string :=
  fun f =>
    if str_in currency ALL_CURRENCIES then
      if negb (str_in currency (currencies f)) then
        let f' := set_currencies (currencies f ++ [currency]) f in
        (Ok (currency ++ " was added. " ++ current (currencies f'))%string, f')
      else
        (Ok (currency ++ " is already in the list. "
               ++ current (currencies f))%string, f)
    else
      (Ok ("There is no such currency. " ++ current (currencies f))%string, f).

Definition remove_currency (currency : string) : M DataFetcher string :=
  fun f =>
    if str_in currency (currencies f) then
      let f' := set_currencies (list_remove currency (currencies f)) f in
      (Ok (currency ++ " was removed. " ++ current (currencies f'))%string, f')
    else
      (Ok (currency ++ " is not in the list. "
             ++ current (currencies f))%string, f).

Definition load_json_sync : M DataFetcher json :=
  fun f =>
    match cache_file f with
    | Missing => (Ok (JDict []), f)
    | Undecodable => (Raise JSONDecodeError, f)
    | Content j => (Ok j, f)
    end.

Definition load_from_cache : M DataFetcher json := load_json_sync.

(** Every value of [json] can be written: its strings hold no character that
    the encoding of the file refuses. *)
Definition dump_json_sync (data : json) : M DataFetcher unit :=
  modify (set_cache_file (Content data)).

Definition save_to_cache (data : json) : M DataFetcher unit :=
  dump_json_sync data.

Section Upstream.

Variable upstream : string -> response.

Definition request (url : string) : M DataFetcher json :=
  fun f =>
    let f' := add_request url f in
    match upstream url with
    | Status code b =>
        if code =? 200 then
          (match b with
           | Json result => Ok result
           | NotJson => Raise ContentTypeError
           | BadJson => Raise JSONDecodeError
           end, f')
        else
          (Raise (HttpError
                    ["Error status: " ++ PyStr.decimal code ++ " for " ++ url]%string),
           f')
    | ClientConnectorError err | InvalidURL err =>
        (Raise (HttpError [("Connection error: " ++ url)%string; err]), f')
    | ServerDisconnected => (Raise ServerDisconnectedError, f')
    | TimedOut => (Raise TimeoutError, f')
    end.

Definition no_data : string := "---".

(** [f'{cur_dict.get(key):0.2f}' if cur_dict.get(key) else "---"] *)
Definition rate_text (cur_dict : json) (key : string) : result string :=
  rbind (Py.get cur_dict key) (fun v =>
  if Py.truthy v then Py.format_2f v else Ok no_data).

(** The dictionary comprehension giving every tracked currency a blank row. *)
Definition blank_rates (tracked : list string) : rates :=
  fold_left (fun d c => dict_set c (mkRate no_data no_data no_data) d) tracked [].

(** One pass of the loop over [date_data["exchangeRate"]]. *)
Definition rate_step (tracked : list string) (acc : rates) (cur_dict : json)
  : result rates :=
  rbind (Py.get cur_dict "currency") (fun currency =>
  match currency with
  | JStr c =>
      if str_in c tracked then
        rbind (rate_text cur_dict "purchaseRate") (fun b =>
        rbind (rate_text cur_dict "saleRate") (fun s =>
        rbind (rate_text cur_dict "saleRateNB") (fun n =>
        Ok (dict_set c (mkRate b s n) acc))))
      else Ok acc
  | _ => Ok acc
  end).

Fixpoint rate_loop (tracked : list string) (acc : rates) (items : list json)
  : result rates :=
  match items with
  | [] => Ok acc
  | cur_dict :: rest =>
      rbind (rate_step tracked acc cur_dict) (fun acc' =>
      rate_loop tracked acc' rest)
  end.

(** The row table of one day, computed from its raw payload. *)
Definition day_rates (tracked : list string) (date_data : json) : result rates :=
  rbind (Py.getitem date_data "exchangeRate") (fun er =>
  rbind (Py.iter er) (fun items =>
  rate_loop tracked (blank_rates tracked) items)).

Local Open Scope monad_scope.

(** The body of [for i in range(days)]; [cache] and [result] are the local
    variables of [get_exchanges]. *)
Definition day_body (now : N) (i : Z) (cache : json)
  (result : list (string * rates))
  : M DataFetcher (json * list (string * rates)) :=
  date_ <- lift (Calendar.date_string now i) ;;
  present <- lift (Py.contains date_ cache) ;;
  ' (date_data, cache') <-
    (if present : bool then
       date_data <- lift (Py.getitem cache date_) ;;
       ret (date_data, cache)
     else
       url <- gets (fun f => (base_url f ++ date_)%string) ;;
       date_data <- request url ;;
       cache' <- lift (Py.setitem cache date_ date_data) ;;
       ret (date_data, cache')) ;;
  tracked <- gets currencies ;;
  day <- lift (day_rates tracked date_data) ;;
  ret (cache', (result ++ [(date_, day)])%list).

Fixpoint days_loop (now : N) (indices : list Z) (cache : json)
  (result : list (string * rates))
  : M DataFetcher (json * list (string * rates)) :=
  match indices with
  | [] => ret (cache, result)
  | i :: rest =>
      ' (cache', result') <- day_body now i cache result ;;
      days_loop now rest cache' result'
  end.

(** [range(days)] *)
Definition range (days : Z) : list Z := map Z.of_nat (seq 0 (Z.to_nat days)).

(** [get_exchanges], run from its load to its save with no other task in
    between; its steps are [load_from_cache], [days_loop] and
    [save_to_cache], which [second_call_inside_first] below interleaves with
    those of another call. *)
Definition get_exchanges (now : N) (days : Z)
  : M DataFetcher (list string * list (string * rates)) :=
  cache <- load_from_cache ;;
  ' (cache', result) <- days_loop now (range days) cache [] ;;
  save_to_cache cache' ;;;
  headers <- gets currencies ;;
  ret (headers, result).

End Upstream.

(** ** The server *)

(** A websocket connection: its identity, the display name given to it at
    registration, and the remote endpoint. *)
Record ws : Type := mkWs {
  ws_id : nat;
  name : string;
  remote_address : string
}.

Definition ws_eqb (a b : ws) : bool := Nat.eqb (ws_id a) (ws_id b).

(** A [Server]: the set of clients in the order in which it is iterated, the
    fetcher, the lines appended to the exchange log, the traces of what was
    sent to each connection and of what was logged as an error, and the
    connections that have closed (in good order or not) while they are still
    in the set. *)
Record Server : Type := mkServer {
  clients : list ws;
  fetcher : DataFetcher;
  log_exchange_file : list (ws * string);
  sent : list (ws * string);
  error_log : list exn;
  closed : list (ws * bool)
}.

Definition set_clients (l : list ws) (s : Server) : Server :=
  mkServer l (fetcher s) (log_exchange_file s) (sent s) (error_log s)
    (closed s).

Definition set_fetcher (f : DataFetcher) (s : Server) : Server :=
  mkServer (clients s) f (log_exchange_file s) (sent s) (error_log s)
    (closed s).

Definition init_server (c : file) : Server :=
  mkServer [] (init_fetcher BASE_URL c) [] [] [] [].

Definition ws_in (w : ws) (l : list ws) : bool := existsb (ws_eqb w) l.

(** [set.add] *)
Definition set_add (w : ws) (l : list ws) : list ws :=
  if ws_in w l then l else (l ++ [w])%list.

(** [set.remove] without the check for membership *)
Definition set_discard (w : ws) (l : list ws) : list ws :=
  filter (fun x => negb (ws_eqb w x)) l.

(** A connection of the set under the name it has been given since. *)
Definition renamed (w' : ws) (l : list ws) : list ws :=
  map (fun x => if ws_eqb w' x then w' else x) l.

(** The name is written on the connection itself, so a connection that is
    in the set already is seen there under its new name. *)
Definition register (full_name : string) (w : ws) : M Server ws :=
  fun s =>
    let w' := mkWs (ws_id w) full_name (remote_address w) in
    (Ok w',
     set_clients
       (if ws_in w' (clients s) then renamed w' (clients s)
        else (clients s ++ [w'])%list) s).

Definition unregister (w : ws) : M Server unit :=
  fun s =>
    if ws_in w (clients s) then (Ok tt, set_clients (set_discard w (clients s)) s)
    else (Raise KeyError, s).

(** [await ws.send(message)] as a handler answers the connection whose
    message it is handling. *)
Definition send (w : ws) (message : string) : M Server unit :=
  modify (fun s =>
    mkServer (clients s) (fetcher s) (log_exchange_file s)
      (sent s ++ [(w, message)])%list (error_log s) (closed s)).

(** Whether the connection has closed, and if so whether in good order. *)
Definition closed_how (w : ws) (s : Server) : option bool :=
  match find (fun p => ws_eqb w (fst p)) (closed s) with
  | Some p => Some (snd p)
  | None => None
  end.

(** [await client.send(message)] to a client of the set: it raises
    [ConnectionClosedOK] or [ConnectionClosedError] when that connection has
    closed. *)
Definition client_send (client : ws) (message : string) : M Server unit :=
  fun s =>
    match closed_how client s with
    | Some true => (Raise ConnectionClosedOK, s)
    | Some false => (Raise ConnectionClosedError, s)
    | None => send client message s
    end.

Definition logging_error (e : exn) : M Server unit :=
  modify (fun s =>
    mkServer (clients s) (fetcher s) (log_exchange_file s) (sent s)
      (error_log s ++ [e])%list (closed s)).

Definition log_exchange (w : ws) (message : string) : M Server unit :=
  modify (fun s =>
    mkServer (clients s) (fetcher s)
      (log_exchange_file s ++ [(w, message)])%list (sent s) (error_log s)
      (closed s)).

(** Runs a method of the fetcher inside the server. *)
Definition on_fetcher {A : Type} (m : M DataFetcher A) : M Server A :=
  fun s =>
    let '(r, f') := m (fetcher s) in (r, set_fetcher f' s).

(** [try: body except HttpError as err: handler err] *)
Definition try_except_http {S A : Type} (body : M S A) (handler : exn -> M S A)
  : M S A :=
  fun s =>
    match body s with
    | (Raise (HttpError a), s') => handler (HttpError a) s'
    | other => other
    end.

(** What happens to the other sessions while a task is suspended: a
    connection is registered, unregistered, or closes while it stays in the
    set. *)
Inductive reg_event : Type :=
| Joins (w : ws)
| Leaves (w : ws)
| Closes (w : ws) (in_good_order : bool).

Definition apply_event (s : Server) (e : reg_event) : Server :=
  match e with
  | Joins w => set_clients (set_add w (clients s)) s
  | Leaves w => set_clients (set_discard w (clients s)) s
  | Closes w ok =>
      mkServer (clients s) (fetcher s) (log_exchange_file s) (sent s)
        (error_log s) (closed s ++ [(w, ok)])%list
  end.

Definition apply_events (l : list reg_event) (s : Server) : Server :=
  fold_left apply_event l s.

(** Nothing happens to the registry during any suspension. *)
Definition quiet : nat -> list reg_event := fun _ => [].

(** The iteration [for client in self.clients] with [await client.send]
    inside.  The set iterator remembers the size [used] the set had when the
    iteration began and its position [pos]; every advance first compares the
    present size of the set with [used] and raises [RuntimeError] when they
    differ.  [env pos] lists what other tasks did while the send to the
    element at [pos] was awaited.  An exception of a send ends the
    iteration.  When clients leave and join so that the size is the same
    again, the iteration goes on in the order of the list; the order in which
    a set is then visited is not fixed by the program. *)
Fixpoint send_loop (env : nat -> list reg_event) (message : string)
  (used : nat) (remaining : nat) (pos : nat) : M Server unit :=
  fun s =>
    if Nat.eqb (List.length (clients s)) used then
      match remaining with
      | O => (Ok tt, s)
      | S remaining' =>
          match nth_error (clients s) pos with
          | Some client =>
              match client_send client message s with
              | (Ok _, s1) =>
                  send_loop env message used remaining' (S pos)
                    (apply_events (env pos) s1)
              | (Raise e, s1) => (Raise e, s1)
              end
          | None => (Ok tt, s)
          end
      end
    else (Raise RuntimeError, s).

Definition send_to_clients (env : nat -> list reg_event) (message : string)
  : M Server unit :=
  fun s =>
    match clients s with
    | [] => (Ok tt, s)
    | _ =>
        send_loop env message (List.length (clients s)) (List.length (clients s)) 0%nat s
    end.

(** No client of the set has closed. *)
Definition all_open (s : Server) : bool :=
  forallb (fun c => match closed_how c s with None => true | Some _ => false end)
    (clients s).

Section Dispatch.

Variable upstream : string -> response.

(** Rendering of [table.jinja] with the variables [headers], [data],
    [subheads] and [days]; the template is not part of the sources. *)
Variable template :
  list string -> list (string * rates) -> list string -> Z -> string.

Definition make_table (headers : list string) (data : list (string * rates))
  : string :=
  let subheads := ["buy"; "sell"; "NBU"] in
  template headers data subheads (Z.of_nat (List.length data)).

Local Open Scope monad_scope.

(** The number of days asked for by the tokens of an exchange command. *)
Definition requested_days (args : list string) : result Z :=
  if (1 <? List.length args)%nat && PyStr.isdigit (nth 1 args "") then
    rbind (PyStr.int (nth 1 args "")) (fun days =>
    Ok (Z.min 10 (Z.max 1 days)))
  else Ok 1.

(** The [try] block of [handle_messages]. *)
Definition exchange_command (now : N) (w : ws) (message : string)
  : M Server unit :=
  let args := PyStr.split message in
  if (2 <? List.length args)%nat && String.eqb (PyStr.lower (nth 1 args "")) "add"
  then
    msg <- on_fetcher (add_currency (PyStr.upper (nth 2 args ""))) ;;
    send w msg
  else if (2 <? List.length args)%nat
          && String.eqb (PyStr.lower (nth 1 args "")) "remove"
  then
    msg <- on_fetcher (remove_currency (PyStr.upper (nth 2 args ""))) ;;
    send w msg
  else
    days <- lift (requested_days args) ;;
    ' (headers, exchanges) <- on_fetcher (get_exchanges upstream now days) ;;
    send w (make_table headers exchanges).

(** The body of [async for message in ws]. *)
Definition handle_message (env : nat -> list reg_event) (now : N) (w : ws)
  (message : string) : M Server unit :=
  if PyStr.startswith message "exchange" then
    try_except_http (exchange_command now w message)
      (fun err => logging_error err ;;; send w "Something went wrong") ;;;
    log_exchange w message
  else send_to_clients env (name w ++ ": " ++ message)%string.

(** The loop over the messages that arrive on a connection: it ends with the
    first exception that reaches it. *)
Fixpoint handle_messages (env : nat -> list reg_event) (now : N) (w : ws)
  (messages : list string) : M Server unit :=
  match messages with
  | [] => ret tt
  | message :: rest =>
      handle_message env now w message ;;;
      handle_messages env now w rest
  end.

End Dispatch.

(** ** The command grammar, as the specification words it *)

Inductive Command : Type :=
| AddCurrency (code : string)
| RemoveCurrency (code : string)
| ShowExchange (days : Z)
| Chat (text : string).

Definition clamp (n lo hi : Z) : Z := Z.min hi (Z.max lo n).

(** Second token of a show-exchange line: a purely numeric token is parsed
    and clamped to [1,10]; anything else stands for one day. *)
Definition token_days (token : string) : Z :=
  if PyStr.isdigit token then clamp (PyStr.int_acc 0 token) 1 10 else 1.

(** The second token of the line, if it is a numeral, is not too long for
    [int]. *)
Definition short_number (line : string) : bool :=
  match PyStr.split line with
  | _ :: token :: _ =>
      negb (PyStr.isdigit token)
      || (String.length token <=? PyStr.max_str_digits)%nat
  | _ => true
  end.

(** A line that does not begin with "exchange" is chat, verbatim.  Otherwise
    the tokens are split on whitespace: "add" or "remove" (in any case) as
    second token together with a third token gives the addition or removal of
    the upper-cased third token; otherwise a numeric second token gives the
    clamped day count, and anything else one day. *)
Definition classify_spec (line : string) : Command :=
  if PyStr.startswith line "exchange" then
    match PyStr.split line with
    | _ :: t1 :: t2 :: _ =>
        if String.eqb (PyStr.lower t1) "add" then AddCurrency (PyStr.upper t2)
        else if String.eqb (PyStr.lower t1) "remove"
             then RemoveCurrency (PyStr.upper t2)
             else ShowExchange (token_days t1)
    | [_; t1] => ShowExchange (token_days t1)
    | _ => ShowExchange 1
    end
  else Chat line.

Section Commands.

Variable upstream : string -> response.
Variable template :
  list string -> list (string * rates) -> list string -> Z -> string.

Local Open Scope monad_scope.

(** What each kind of command does: an exchange command answers its sender
    only, reports an upstream failure with a fixed text and is recorded in the
    exchange log; chat is sent to the clients. *)
Definition run_command (env : nat -> list reg_event) (now : N) (w : ws)
  (line : string) (c : Command) : M Server unit :=
  let answered (body : M Server unit) : M Server unit :=
    try_except_http body
      (fun err => logging_error err ;;; send w "Something went wrong") ;;;
    log_exchange w line in
  match c with
  | AddCurrency code =>
      answered (msg <- on_fetcher (add_currency code) ;; send w msg)
  | RemoveCurrency code =>
      answered (msg <- on_fetcher (remove_currency code) ;; send w msg)
  | ShowExchange days =>
      answered
        (' (headers, exchanges) <-
           on_fetcher (get_exchanges upstream now days) ;;
         send w (make_table template headers exchanges))
  | Chat text => send_to_clients env (name w ++ ": " ++ text)%string
  end.

End Commands.

(** Responses that [request] turns into an [HttpError]: a status other than
    200, a failure to connect, an invalid URL. *)
Definition http_failure (r : response) : bool :=
  match r with
  | Status code _ => negb (code =? 200)
  | ClientConnectorError _ | InvalidURL _ => true
  | ServerDisconnected | TimedOut => false
  end.

(** ** Shapes of formatted rates *)

(** One or more digits (at least one when [seen] is false), a point, and
    exactly two digits. *)
Fixpoint digits_point_2 (seen : bool) (s : string) : bool :=
  match s with
  | EmptyString => false
  | String c s' =>
      if Ascii.eqb c "." then
        seen &&
        match s' with
        | String a (String b EmptyString) =>
            PyStr.isdigit_char a && PyStr.isdigit_char b
        | _ => false
        end
      else PyStr.isdigit_char c && digits_point_2 true s'
  end.

(** An optional minus sign followed by a numeral with two decimals. *)
Definition two_decimals (s : string) : bool :=
  match s with
  | String c s' =>
      if Ascii.eqb c "-" then digits_point_2 false s' else digits_point_2 false s
  | EmptyString => false
  end.

(** The number a well-formed rate field carries: a finite float, or an
    integer small enough to be a float exactly. *)
Definition rate_number (v : json) : option (Z * positive) :=
  match v with
  | JFloat (FFin n d) => Some (n, d)
  | JInt z => if Z.abs z <? 2 ^ 53 then Some (z, 1%positive) else None
  | _ => None
  end.

(** A rate field is absent, null, or a number. *)
Definition rate_field_ok (entry : list (string * json)) (key : string) : bool :=
  match dict_get key entry with
  | None | Some JNull => true
  | Some v => match rate_number v with Some _ => true | None => false end
  end.

(** An entry of "exchangeRate": a dictionary with well-formed rate fields. *)
Definition entry_ok (item : json) : bool :=
  match item with
  | JDict e =>
      rate_field_ok e "purchaseRate" && rate_field_ok e "saleRate"
      && rate_field_ok e "saleRateNB"
  | _ => false
  end.

(** The text shown for a field: two decimals for a nonzero rate, the
    sentinel for a field that is absent, null or zero. *)
Definition shown (entry : list (string * json)) (key : string) : string :=
  match dict_get key entry with
  | Some v =>
      match rate_number v with
      | Some (n, d) => if n =? 0 then no_data else Py.fixed2 n d
      | None => no_data
      end
  | None => no_data
  end.

Definition names_currency (c : string) (item : json) : bool :=
  match item with
  | JDict e =>
      match dict_get "currency" e with
      | Some (JStr c') => String.eqb c' c
      | _ => false
      end
  | _ => false
  end.

(** The entry of a payload that decides the row of currency [c]: the last
    one naming it. *)
Definition entry_for (c : string) (items : list json) : option json :=
  find (names_currency c) (rev items).

(** ** Sample data *)

Module Sample.

Definition usd_row : json :=
  JDict [("baseCurrency", JStr "UAH"); ("currency", JStr "USD");
         ("saleRateNB", JFloat (FFin 365686 10000));
         ("purchaseRateNB", JFloat (FFin 365686 10000));
         ("saleRate", JFloat (FFin 3745 100));
         ("purchaseRate", JFloat (FFin 3695 100))].

Definition gbp_row : json :=
  JDict [("baseCurrency", JStr "UAH"); ("currency", JStr "GBP");
         ("saleRateNB", JFloat (FFin 440568 10000));
         ("purchaseRateNB", JFloat (FFin 440568 10000))].

Definition eur_row : json :=
  JDict [("baseCurrency", JStr "UAH"); ("currency", JStr "EUR");
         ("saleRateNB", JInt 40); ("saleRate", JInt 0)].

Definition payload (date_ : string) : json :=
  JDict [("date", JStr date_); ("bank", JStr "PB");
         ("exchangeRate", JList [gbp_row; usd_row; eur_row])].

(** 3 November 2026, counted from 1 January 1970. *)
Definition now : N := 20760.

(** An upstream that serves 3 November and 1 November 2026, fails with status
    500 for 2 November, and answers any other date with an empty object. *)
Definition upstream (url : string) : response :=
  if String.eqb url (BASE_URL ++ "03.11.2026") then
    Status 200 (Json (payload "03.11.2026"))
  else if String.eqb url (BASE_URL ++ "01.11.2026") then
    Status 200 (Json (payload "01.11.2026"))
  else if String.eqb url (BASE_URL ++ "02.11.2026") then
    Status 500 NotJson
  else Status 200 (Json (JDict [])).


(** A string of [n] nines. *)
Fixpoint nines (n : nat) : string :=
  match n with
  | O => EmptyString
  | S n' => String "9" (nines n')
  end.

(** An upstream that serves every date. *)
Definition healthy (url : string) : response :=
  Status 200 (Json (payload "")).

Definition template (headers : list string) (data : list (string * rates))
  (subheads : list string) (days : Z) : string :=
  ("<table>" ++ PyStr.join "," headers ++ "|"
     ++ PyStr.join "," (map fst data) ++ "</table>")%string.

Definition alice : ws := mkWs 1 "Alice Smith" "10.0.0.1:5001".
Definition bob : ws := mkWs 2 "Bob Jones" "10.0.0.2:5002".
Definition carol : ws := mkWs 3 "Carol White" "10.0.0.3:5003".
Definition dave : ws := mkWs 4 "Dave Brown" "10.0.0.4:5004".

Definition server (c : file) : Server :=
  mkServer [alice; bob; carol] (init_fetcher BASE_URL c) [] [] [] [].

(** A cache holding 2 November 2026 already. *)
Definition cached : file :=
  Content (JDict [("02.11.2026", payload "02.11.2026")]).

(** While the first send of a broadcast is awaited, [dave] connects. *)
Definition dave_joins (pos : nat) : list reg_event :=
  match pos with O => [Joins dave] | _ => [] end.

End Sample.

(** ** The tracked currencies *)

(** Every tracked code is in the catalogue and none occurs twice. *)
Definition tracked_ok (l : list string) : Prop :=
  (forall c, In c l -> In c ALL_CURRENCIES) /\ NoDup l.

(** Calls that change the tracked list. *)
Inductive currency_call : Type :=
| CallAdd (code : string)
| CallRemove (code : string).

Definition run_call (f : DataFetcher) (c : currency_call) : DataFetcher :=
  match c with
  | CallAdd code => snd (add_currency code f)
  | CallRemove code => snd (remove_currency code f)
  end.

Definition run_calls (l : list currency_call) (f : DataFetcher) : DataFetcher :=
  fold_left run_call l f.

(** Two fetchers that differ at most in the requests they have recorded. *)
Definition same_but_requests (f f' : DataFetcher) : Prop :=
  base_url f' = base_url f /\ currencies f' = currencies f
  /\ cache_file f' = cache_file f.

(** ** Growth of the cache *)

(** [c] holds everything [c0] holds: it is [c0] itself, or both are
    dictionaries and every entry of [c0] is an entry of [c]. *)
Definition extends (c0 c : json) : Prop :=
  c = c0
  \/ exists d0 d, c0 = JDict d0 /\ c = JDict d
       /\ forall k v, dict_get k d0 = Some v -> dict_get k d = Some v.

(** The dictionary a cache file holds for [load_json_sync]. *)
Definition loaded (c : file) : result json :=
  match c with
  | Missing => Ok (JDict [])
  | Undecodable => Raise JSONDecodeError
  | Content j => Ok j
  end.

Section LoopPost.

Variable upstream : string -> response.

(** What a run of the loop over [indices] from [cache] guarantees about the
    requests it added, [new], its outcome [r] and the fetcher [f] it started
    from. *)
Definition loop_post (now : N) (indices : list Z) (cache : json)
  (acc : list (string * rates)) (f : DataFetcher)
  (r : result (json * list (string * rates))) (new : list string) : Prop :=
  (forall u, In u new ->
     exists i date_, In i indices /\ Calendar.date_string now i = Ok date_
       /\ u = (base_url f ++ date_)%string
       /\ Py.contains date_ cache = Ok false)
  /\ (forall u, In u new -> http_failure (upstream u) = true ->
        exists a, r = Raise (HttpError a))
  /\ match r with
     | Ok (cache', result') =>
         extends cache cache'
         /\ (forall u, In u new ->
               exists i date_ data, In i indices
                 /\ Calendar.date_string now i = Ok date_
                 /\ u = (base_url f ++ date_)%string
                 /\ upstream u = Status 200 (Json data)
                 /\ Py.getitem cache' date_ = Ok data)
         /\ exists rows, result' = (acc ++ rows)%list
              /\ Forall2 (fun i row =>
                   Calendar.date_string now i = Ok (fst row)
                   /\ exists data, Py.getitem cache' (fst row) = Ok data
                        /\ day_rates (currencies f) data = Ok (snd row))
                   indices rows
     | Raise _ => True
     end.

End LoopPost.

(** The row shown for an entry. *)
Definition row_of (e : list (string * json)) : rate :=
  mkRate (shown e "purchaseRate") (shown e "saleRate") (shown e "saleRateNB").

Definition blank_row : rate := mkRate no_data no_data no_data.

(** The row of currency [c] for the entries [items]. *)
Definition row_for (c : string) (items : list json) : rate :=
  match entry_for c items with
  | Some (JDict e) => row_of e
  | _ => blank_row
  end.

(** A field of a row is the sentinel or a numeral with two decimals. *)
Definition field_shape (t : string) : Prop :=
  t = no_data \/ two_decimals t = true.

(** ** The handler of one connection *)

(** [try: body finally: final]: [final] runs whatever [body] did; what
    [body] returned or raised stands unless [final] raises. *)
Definition try_finally {S A : Type} (body : M S A) (final : M S unit) : M S A :=
  fun s =>
    let '(r, s1) := body s in
    match final s1 with
    | (Ok _, s2) => (r, s2)
    | (Raise e, s2) => (Raise e, s2)
    end.

(** [try: body except ConnectionClosedOK: pass] *)
Definition try_except_closed_ok {S : Type} (body : M S unit) : M S unit :=
  fun s =>
    match body s with
    | (Raise ConnectionClosedOK, s') => (Ok tt, s')
    | other => other
    end.

Definition WELCOME : string :=
  "<h2>Welcome to chat! </h2>Use <b>exchange add <i>currency_lit</i></b> to add or<b>exchange remove <i>currency_lit</i></b> to remove currency (USD or EUR or another).<br>Type <b>exchange <i>number</i></b> for showing exchange rates of <i><b>number</b></i> previous days (1 by default, max 10)<h3>or simly send messages to all in chat</h3>".

Section Handler.

Variable upstream : string -> response.
Variable template :
  list string -> list (string * rates) -> list string -> Z -> string.

Local Open Scope monad_scope.

(** [ws_handler] for a connection on which [messages] arrive before it
    closes in good order; [full_name] is the name generated for it. *)
Definition ws_handler (env : nat -> list reg_event) (now : N)
  (full_name : string) (w : ws) (messages : list string) : M Server unit :=
  w' <- register full_name w ;;
  try_finally
    (try_except_closed_ok
       (send w' WELCOME ;;;
        handle_messages upstream template env now w' messages))
    (unregister w').

End Handler.

(** The requests a step may add: none repeated, ten at most. *)
Definition few_requests (f f' : DataFetcher) : Prop :=
  exists new, requests f' = (requests f ++ new)%list
    /\ NoDup new /\ (List.length new <= 10)%nat.

(** ** Two calls at once *)

Section Interleaving.

Variable upstream : string -> response.

Local Open Scope monad_scope.

(** Two calls of [get_exchanges] on one fetcher, the steps of [get_exchanges]
    run below being those of a call that no other task interrupts.  The
    first call loads the store and is suspended in its first request; the
    second call runs meanwhile from its load to its save; the first call then
    resumes with the store it had loaded, resolves its days and saves.  The
    outcome pairs what the first call returns with what the second
    returned. *)
Definition second_call_inside_first (now : N) (days1 days2 : Z)
  : M DataFetcher
      ((list string * list (string * rates))
       * (list string * list (string * rates))) :=
  cache1 <- load_from_cache ;;
  r2 <- get_exchanges upstream now days2 ;;
  ' (cache1', result1) <- days_loop upstream now (range days1) cache1 [] ;;
  save_to_cache cache1' ;;;
  headers <- gets currencies ;;
  ret ((headers, result1), r2).

End Interleaving.

(** Whether the store in the cache file holds the date. *)
Definition store_has (date_ : string) (f : DataFetcher) : result bool :=
  rbind (loaded (cache_file f)) (Py.contains date_).

(** * Properties *)

(** ** The model on sample inputs *)

Example split_ex :
  PyStr.split " exchange   add usd " = ["exchange"; "add"; "usd"].
Proof. reflexivity. Qed.

Example int_ex : PyStr.int "0015" = Ok 15.
Proof. reflexivity. Qed.

Example decimal_ex : PyStr.decimal 2026 = "2026".
Proof. reflexivity. Qed.

Example join_ex : PyStr.join ", " ["USD"; "EUR"; "GBP"] = "USD, EUR, GBP".
Proof. reflexivity. Qed.

Example format_ex1 : Py.format_2f (JFloat (FFin 275 10)) = Ok "27.50".
Proof. reflexivity. Qed.

Example format_ex2 : Py.format_2f (JFloat (FFin 1005 1000)) = Ok "1.00".
Proof. reflexivity. Qed.

Example format_ex3 : Py.format_2f (JFloat (FFin (-1) 1000)) = Ok "-0.00".
Proof. reflexivity. Qed.

Example format_ex4 : Py.format_2f (JInt 41) = Ok "41.00".
Proof. reflexivity. Qed.

Example format_ex5 :
  Py.format_2f (JInt (2 ^ 53 + 1)) = Ok "9007199254740992.00".
Proof. vm_compute. reflexivity. Qed.

Example format_ex6 : Py.format_2f (JInt (2 ^ 1024 - 1)) = Raise OverflowError.
Proof. vm_compute. reflexivity. Qed.

Example ord2ymd_epoch : Calendar.ord2ymd 719163 = (1970, 1, 1).
Proof. reflexivity. Qed.

Example strftime_leap : Calendar.strftime (719163 + 19782) = "29.02.2024".
Proof. reflexivity. Qed.

Example strftime_eoy : Calendar.strftime (719163 + 19722) = "31.12.2023".
Proof. reflexivity. Qed.

Example date_string_ex : Calendar.date_string 20760%N 1 = Ok "02.11.2026".
Proof. reflexivity. Qed.

Example get_exchanges_sample :
  fst (get_exchanges Sample.upstream Sample.now 1
         (init_fetcher BASE_URL Missing))
  = Ok (["USD"; "EUR"],
        [("03.11.2026",
          [("USD", mkRate "36.95" "37.45" "36.57");
           ("EUR", mkRate "---" "---" "40.00")])]).
Proof. vm_compute. reflexivity. Qed.

(** ** Membership and dictionaries *)

Lemma str_in_In (s : string) (l : list string) :
  str_in s l = true <-> In s l.
Proof.
  unfold str_in. rewrite existsb_exists. split.
  - intros [x [Hx He]]. apply String.eqb_eq in He. now subst.
  - intros H. exists s. split; [assumption | apply String.eqb_refl].
Qed.

Lemma str_in_false (s : string) (l : list string) :
  str_in s l = false <-> ~ In s l.
Proof.
  rewrite <- str_in_In. destruct (str_in s l); split; congruence.
Qed.

Lemma list_remove_In (x y : string) (l : list string) :
  In y (list_remove x l) -> In y l.
Proof.
  induction l as [|a l IH]; simpl; [tauto|].
  destruct (String.eqb x a); simpl; tauto.
Qed.

Lemma list_remove_NoDup (x : string) (l : list string) :
  NoDup l -> NoDup (list_remove x l).
Proof.
  induction 1 as [|a l Ha Hl IH]; simpl; [constructor|].
  destruct (String.eqb x a); [assumption|].
  constructor; [|assumption].
  intros H. apply Ha. eapply list_remove_In. eassumption.
Qed.

Lemma list_remove_gone (x : string) (l : list string) :
  NoDup l -> ~ In x (list_remove x l).
Proof.
  induction 1 as [|a l Ha Hl IH]; simpl; [tauto|].
  destruct (String.eqb x a) eqn:E.
  - apply String.eqb_eq in E. now subst.
  - apply String.eqb_neq in E. simpl. intros [H|H]; [congruence | tauto].
Qed.

Lemma tracked_ok_initial : tracked_ok ["USD"; "EUR"].
Proof.
  split.
  - intros c [H|[H|[]]]; subst; apply str_in_In; reflexivity.
  - repeat constructor; simpl; intuition discriminate.
Qed.

Lemma add_currency_ok (code : string) (f : DataFetcher) :
  tracked_ok (currencies f) -> tracked_ok (currencies (snd (add_currency code f))).
Proof.
  intros [Hcat Hnd]. unfold add_currency.
  destruct (str_in code ALL_CURRENCIES) eqn:Ecat; [|now split].
  destruct (str_in code (currencies f)) eqn:Ein; simpl; [now split|].
  apply str_in_In in Ecat. apply str_in_false in Ein. split.
  - intros c Hc. apply in_app_or in Hc. destruct Hc as [Hc|[Hc|[]]];
      [auto | now subst].
  - apply NoDup_app; [assumption | repeat constructor; simpl; tauto |].
    intros a Ha [Hb|[]]. now subst.
Qed.

Lemma remove_currency_ok (code : string) (f : DataFetcher) :
  tracked_ok (currencies f) ->
  tracked_ok (currencies (snd (remove_currency code f))).
Proof.
  intros [Hcat Hnd]. unfold remove_currency.
  destruct (str_in code (currencies f)); simpl; [|now split].
  split.
  - intros c Hc. apply Hcat. eapply list_remove_In. eassumption.
  - now apply list_remove_NoDup.
Qed.

Lemma run_calls_ok (l : list currency_call) (f : DataFetcher) :
  tracked_ok (currencies f) -> tracked_ok (currencies (run_calls l f)).
Proof.
  revert f. induction l as [|c l IH]; intros f H; simpl; [assumption|].
  apply IH. destruct c; simpl; [now apply add_currency_ok | now apply remove_currency_ok].
Qed.

(** C6. The tracked list starts as USD, EUR; after any sequence of
    [add_currency] and [remove_currency] calls all its codes belong to the
    catalogue and none is repeated; adding a code that is not in the
    catalogue or is tracked already, and removing a code that is not
    tracked, leave the fetcher as it was and answer with a message that ends
    with the list as it stands. *)
Theorem tracked_currencies_invariant :
  forall (url : string) (c : file) (calls : list currency_call) (code : string),
    let f := run_calls calls (init_fetcher url c) in
    currencies (init_fetcher url c) = ["USD"; "EUR"]
    /\ tracked_ok (currencies f)
    /\ (str_in code ALL_CURRENCIES = false ->
        add_currency code f
        = (Ok ("There is no such currency. " ++ current (currencies f))%string, f))
    /\ (str_in code (currencies f) = true ->
        add_currency code f
        = (Ok (code ++ " is already in the list. "
                 ++ current (currencies f))%string, f))
    /\ (str_in code (currencies f) = false ->
        remove_currency code f
        = (Ok (code ++ " is not in the list. "
                 ++ current (currencies f))%string, f)).
Proof.
  intros url c calls code f.
  assert (Hok : tracked_ok (currencies f))
    by (apply run_calls_ok; apply tracked_ok_initial).
  split; [reflexivity|]. split; [assumption|].
  split; [|split].
  - intros H. unfold add_currency. now rewrite H.
  - intros H. unfold add_currency. rewrite H.
    destruct Hok as [Hcat _]. apply str_in_In in H.
    apply Hcat in H. apply str_in_In in H. now rewrite H.
  - intros H. unfold remove_currency. now rewrite H.
Qed.

(** The second addition of GBP, the addition of an unknown code and the
    removal of an untracked one. *)
Lemma tracked_currencies_invariant_witness :
  let f := run_calls [CallAdd "GBP"] (init_fetcher BASE_URL Missing) in
  add_currency "XXX" f
  = (Ok "There is no such currency. Current currencies: USD, EUR, GBP", f)
  /\ add_currency "GBP" f
     = (Ok "GBP is already in the list. Current currencies: USD, EUR, GBP", f)
  /\ remove_currency "PLN" f
     = (Ok "PLN is not in the list. Current currencies: USD, EUR, GBP", f).
Proof.
  pose proof (tracked_currencies_invariant BASE_URL Missing [CallAdd "GBP"]) as H.
  split; [|split].
  - apply (H "XXX"). reflexivity.
  - apply (H "GBP"). reflexivity.
  - apply (H "PLN"). reflexivity.
Defined.

(** ** One request *)

Section FetcherFacts.

Variable upstream : string -> response.

Lemma request_state (url : string) (f : DataFetcher) :
  snd (request upstream url f) = add_request url f.
Proof.
  unfold request. destruct (upstream url) as [code b|err|err| |];
    try reflexivity.
  destruct (code =? 200); reflexivity.
Qed.

Lemma request_failure (url : string) (f : DataFetcher) :
  http_failure (upstream url) = true ->
  exists a, fst (request upstream url f) = Raise (HttpError a).
Proof.
  unfold request, http_failure.
  destruct (upstream url) as [code b|err|err| |]; intros H;
    try discriminate; try (eexists; reflexivity).
  destruct (code =? 200); [discriminate | eexists; reflexivity].
Qed.

Lemma request_ok (url : string) (f : DataFetcher) (data : json) :
  fst (request upstream url f) = Ok data ->
  upstream url = Status 200 (Json data).
Proof.
  unfold request.
  destruct (upstream url) as [code b|err|err| |]; try discriminate.
  destruct (code =? 200) eqn:E; [|discriminate].
  destruct b as [j| |]; try discriminate.
  simpl. intros [= ->]. apply Z.eqb_eq in E. now subst.
Qed.

(** [request] raises [HttpError] only for the failures of the upstream. *)
Lemma request_http (url : string) (f : DataFetcher) (a : list string) :
  fst (request upstream url f) = Raise (HttpError a) ->
  http_failure (upstream url) = true.
Proof.
  unfold request, http_failure.
  destruct (upstream url) as [code b|err|err| |]; try reflexivity;
    try discriminate.
  destruct (code =? 200); [|reflexivity].
  destruct b; discriminate.
Qed.

(** ** One day of the loop, case by case *)

Lemma day_body_cases (now : N) (i : Z) (cache : json)
  (result : list (string * rates)) (f : DataFetcher) :
  day_body upstream now i cache result f =
  match Calendar.date_string now i with
  | Raise e => (Raise e, f)
  | Ok date_ =>
      match Py.contains date_ cache with
      | Raise e => (Raise e, f)
      | Ok true =>
          match Py.getitem cache date_ with
          | Raise e => (Raise e, f)
          | Ok data =>
              match day_rates (currencies f) data with
              | Raise e => (Raise e, f)
              | Ok day => (Ok (cache, (result ++ [(date_, day)])%list), f)
              end
          end
      | Ok false =>
          let f1 := add_request (base_url f ++ date_)%string f in
          match fst (request upstream (base_url f ++ date_)%string f) with
          | Raise e => (Raise e, f1)
          | Ok data =>
              match Py.setitem cache date_ data with
              | Raise e => (Raise e, f1)
              | Ok cache' =>
                  match day_rates (currencies f) data with
                  | Raise e => (Raise e, f1)
                  | Ok day => (Ok (cache', (result ++ [(date_, day)])%list), f1)
                  end
              end
          end
      end
  end.
Proof.
  unfold day_body, bind, lift, gets, ret.
  destruct (Calendar.date_string now i) as [date_|e]; [|reflexivity].
  destruct (Py.contains date_ cache) as [[|]|e]; [| |reflexivity].
  - destruct (Py.getitem cache date_) as [data|e]; [|reflexivity].
    destruct (day_rates (currencies f) data); reflexivity.
  - pose proof (request_state (base_url f ++ date_)%string f) as Hs.
    destruct (request upstream (base_url f ++ date_)%string f) as [r f1].
    simpl in Hs. subst f1. simpl.
    destruct r as [data|e]; [|reflexivity].
    destruct (Py.setitem cache date_ data) as [cache'|e]; [|reflexivity].
    simpl. destruct (day_rates (currencies f) data); reflexivity.
Qed.

(** ** What the loop leaves alone *)

Lemma same_but_requests_refl (f : DataFetcher) : same_but_requests f f.
Proof. repeat split. Qed.

Lemma same_but_requests_trans (f g h : DataFetcher) :
  same_but_requests f g -> same_but_requests g h -> same_but_requests f h.
Proof.
  unfold same_but_requests. intros [A [B C]] [D [E F]].
  repeat split; congruence.
Qed.

Lemma day_body_frame (now : N) (i : Z) (cache : json)
  (result : list (string * rates)) (f : DataFetcher) :
  same_but_requests f (snd (day_body upstream now i cache result f)).
Proof.
  rewrite day_body_cases.
  destruct (Calendar.date_string now i) as [date_|e];
    [|apply same_but_requests_refl].
  destruct (Py.contains date_ cache) as [[|]|e];
    try apply same_but_requests_refl.
  - destruct (Py.getitem cache date_) as [data|e];
      [|apply same_but_requests_refl].
    destruct (day_rates (currencies f) data); apply same_but_requests_refl.
  - cbv zeta.
    destruct (fst (request upstream (base_url f ++ date_)%string f));
      [|repeat split].
    destruct (Py.setitem cache date_ a); [|repeat split].
    destruct (day_rates (currencies f) a); repeat split.
Qed.

Lemma days_loop_frame (now : N) (indices : list Z) :
  forall (cache : json) (result : list (string * rates)) (f : DataFetcher),
    same_but_requests f (snd (days_loop upstream now indices cache result f)).
Proof.
  induction indices as [|i rest IH]; intros cache result f; simpl.
  - apply same_but_requests_refl.
  - unfold bind.
    pose proof (day_body_frame now i cache result f) as H.
    destruct (day_body upstream now i cache result f) as [[[c r]|e] f1];
      simpl in H; [|assumption].
    eapply same_but_requests_trans; [eassumption | apply IH].
Qed.

(** C10. A call of [get_exchanges] leaves the tracked currencies (and the
    base URL) of the fetcher as they were, whatever the state, the date and
    the number of days, and whether it returns or raises; the headers it
    returns are that list. *)
Theorem get_exchanges_keeps_currencies :
  forall (now : N) (days : Z) (f : DataFetcher),
    currencies (snd (get_exchanges upstream now days f)) = currencies f
    /\ base_url (snd (get_exchanges upstream now days f)) = base_url f
    /\ match fst (get_exchanges upstream now days f) with
       | Ok (headers, _) => headers = currencies f
       | Raise _ => True
       end.
Proof.
  intros now days f.
  unfold get_exchanges, bind, load_from_cache, load_json_sync,
    save_to_cache, dump_json_sync, modify, gets, ret.
  destruct (cache_file f) as [| |j] eqn:Ef; try (simpl; tauto).
  - pose proof (days_loop_frame now (range days) (JDict []) [] f) as H.
    destruct (days_loop upstream now (range days) (JDict []) [] f)
      as [[[c r]|e] f1]; destruct H as [A [B C]]; simpl in *; tauto.
  - pose proof (days_loop_frame now (range days) j [] f) as H.
    destruct (days_loop upstream now (range days) j [] f)
      as [[[c r]|e] f1]; destruct H as [A [B C]]; simpl in *; tauto.
Qed.

End FetcherFacts.

(** ** Dictionaries *)

Lemma dict_get_set_same {V : Type} (k : string) (v : V) (d : list (string * V)) :
  dict_get k (dict_set k v d) = Some v.
Proof.
  induction d as [|[k' v'] d IH]; simpl.
  - now rewrite String.eqb_refl.
  - destruct (String.eqb k k') eqn:E; simpl.
    + now rewrite String.eqb_refl.
    + now rewrite E.
Qed.

Lemma dict_get_set_other {V : Type} (k k0 : string) (v : V)
  (d : list (string * V)) :
  k0 <> k -> dict_get k0 (dict_set k v d) = dict_get k0 d.
Proof.
  intros Hne. induction d as [|[k' v'] d IH]; simpl.
  - apply String.eqb_neq in Hne. now rewrite Hne.
  - destruct (String.eqb k k') eqn:E; simpl.
    + apply String.eqb_eq in E. subst k'.
      apply String.eqb_neq in Hne. now rewrite Hne.
    + now rewrite IH.
Qed.

Lemma extends_refl (c : json) : extends c c.
Proof. now left. Qed.

Lemma extends_trans (a b c : json) : extends a b -> extends b c -> extends a c.
Proof.
  intros [->|[d0 [d1 [-> [-> H1]]]]] H2; [assumption|].
  destruct H2 as [->|[d1' [d2 [E [-> H2]]]]].
  - right. now exists d0, d1.
  - injection E as <-. right. exists d0, d2. repeat split. auto.
Qed.

Lemma extends_getitem (c0 c : json) (k : string) (v : json) :
  extends c0 c -> Py.getitem c0 k = Ok v -> Py.getitem c k = Ok v.
Proof.
  intros [->|[d0 [d [-> [-> H]]]]]; [trivial|].
  simpl. destruct (dict_get k d0) as [v0|] eqn:E; [|discriminate].
  intros [= ->]. now rewrite (H _ _ E).
Qed.

Lemma extends_absent (c0 c : json) (k : string) :
  extends c0 c -> Py.contains k c = Ok false -> Py.contains k c0 = Ok false.
Proof.
  intros [->|[d0 [d [-> [-> H]]]]]; [trivial|].
  simpl. unfold dict_has.
  destruct (dict_get k d0) as [v0|] eqn:E; [|trivial].
  now rewrite (H _ _ E).
Qed.

Lemma setitem_extends (c c' : json) (k : string) (v : json) :
  Py.contains k c = Ok false -> Py.setitem c k v = Ok c' ->
  extends c c' /\ Py.getitem c' k = Ok v.
Proof.
  destruct c; try discriminate. simpl. unfold dict_has.
  destruct (dict_get k d) eqn:E; [discriminate|].
  intros _ [= <-]. split.
  - right. exists d, (dict_set k v d). repeat split.
    intros k0 v0 H0. rewrite dict_get_set_other; [assumption|congruence].
  - simpl. now rewrite dict_get_set_same.
Qed.

(** ** The loop over the days *)

Section LoopFacts.

Variable upstream : string -> response.

Lemma day_body_post (now : N) (i : Z) (cache : json)
  (acc : list (string * rates)) (f : DataFetcher) :
  exists new,
    requests (snd (day_body upstream now i cache acc f))
    = (requests f ++ new)%list
    /\ loop_post upstream now [i] cache acc f
         (fst (day_body upstream now i cache acc f)) new.
Proof.
  rewrite day_body_cases.
  destruct (Calendar.date_string now i) as [date_|e] eqn:Ed.
  2:{ exists []. simpl. rewrite app_nil_r. repeat split; intros u []. }
  destruct (Py.contains date_ cache) as [[|]|e] eqn:Ec.
  3:{ exists []. simpl. rewrite app_nil_r. repeat split; intros u []. }
  - exists []. rewrite app_nil_r.
    destruct (Py.getitem cache date_) as [data|e] eqn:Eg;
      [|simpl; repeat split; intros u []].
    destruct (day_rates (currencies f) data) as [day|e] eqn:Er;
      [|simpl; repeat split; intros u []].
    simpl. split; [reflexivity|]. split; [intros u []|]. split; [intros u []|].
    split; [apply extends_refl|]. split; [intros u []|].
    exists [(date_, day)]. split; [reflexivity|].
    constructor; [|constructor]. simpl. split; [assumption|].
    exists data. now split.
  - cbv zeta. set (url := (base_url f ++ date_)%string).
    exists [url]. split.
    { destruct (fst (request upstream url f)); [|reflexivity].
      destruct (Py.setitem cache date_ a); [|reflexivity].
      destruct (day_rates (currencies f) a); reflexivity. }
    assert (Hfirst : forall u, In u [url] ->
              exists i0 d0, In i0 [i] /\ Calendar.date_string now i0 = Ok d0
                /\ u = (base_url f ++ d0)%string
                /\ Py.contains d0 cache = Ok false).
    { intros u [<-|[]]. exists i, date_. repeat split; auto. now left. }
    destruct (fst (request upstream url f)) as [data|e] eqn:Eq.
    + apply request_ok in Eq.
      assert (Hnf : forall u, In u [url] -> http_failure (upstream u) = true ->
                False).
      { intros u [<-|[]]. rewrite Eq. discriminate. }
      destruct (Py.setitem cache date_ data) as [cache'|e] eqn:Es.
      2:{ simpl. split; [assumption|]. split; [|trivial].
          intros u Hu Hf. destruct (Hnf u Hu Hf). }
      destruct (setitem_extends _ _ _ _ Ec Es) as [Hext Hget].
      destruct (day_rates (currencies f) data) as [day|e] eqn:Er.
      2:{ simpl. split; [assumption|]. split; [|trivial].
          intros u Hu Hf. destruct (Hnf u Hu Hf). }
      simpl. split; [assumption|]. split.
      { intros u Hu Hf. destruct (Hnf u Hu Hf). }
      split; [assumption|]. split.
      { intros u [<-|[]]. exists i, date_, data. repeat split; auto. now left. }
      exists [(date_, day)]. split; [reflexivity|].
      constructor; [|constructor]. simpl. split; [assumption|].
      exists data. now split.
    + simpl. split; [assumption|]. split; [|trivial].
      intros u [<-|[]] Hf.
      destruct (request_failure upstream url f Hf) as [a Ha].
      rewrite Eq in Ha. injection Ha as ->. now exists a.
Qed.

Lemma days_loop_post (now : N) (indices : list Z) :
  forall (cache : json) (acc : list (string * rates)) (f : DataFetcher),
  exists new,
    requests (snd (days_loop upstream now indices cache acc f))
    = (requests f ++ new)%list
    /\ loop_post upstream now indices cache acc f
         (fst (days_loop upstream now indices cache acc f)) new.
Proof.
  induction indices as [|i rest IH]; intros cache acc f.
  - exists []. simpl. rewrite app_nil_r. split; [reflexivity|].
    split; [intros u []|]. split; [intros u []|].
    split; [apply extends_refl|]. split; [intros u []|].
    exists []. rewrite app_nil_r. split; [reflexivity | constructor].
  - simpl. unfold bind.
    destruct (day_body_post now i cache acc f) as [new1 [Hreq1 H1]].
    pose proof (day_body_frame upstream now i cache acc f) as Hfr.
    destruct (day_body upstream now i cache acc f) as [[[c1 r1]|e] f1].
    2:{ exists new1. simpl in *. split; [assumption|].
        destruct H1 as [A [B _]]. split; [|split; [assumption|trivial]].
        intros u Hu. destruct (A u Hu) as [i0 [d0 [Hi H]]].
        exists i0, d0. split; [|assumption].
        destruct Hi as [<-|[]]. now left. }
    simpl in Hreq1, H1, Hfr.
    destruct Hfr as [Hbase [Hcur _]].
    destruct H1 as [A1 [B1 [Hext1 [C1 [rows1 [Hrows1 F1]]]]]].
    destruct (IH c1 r1 f1) as [new2 [Hreq2 H2]].
    exists (new1 ++ new2)%list. split.
    { rewrite Hreq2, Hreq1. now rewrite app_assoc. }
    destruct H2 as [A2 [B2 H2]].
    rewrite Hbase in A2. rewrite Hbase, Hcur in H2.
    split; [|split].
    + intros u Hu. apply in_app_or in Hu. destruct Hu as [Hu|Hu].
      * destruct (A1 u Hu) as [i0 [d0 [Hi H]]].
        exists i0, d0. split; [|assumption].
        destruct Hi as [<-|[]]. now left.
      * destruct (A2 u Hu) as [i0 [d0 [Hi [Hd [Hu' Hc]]]]].
        exists i0, d0. split; [now right|]. split; [assumption|].
        split; [assumption|]. eapply extends_absent; eassumption.
    + intros u Hu Hf. apply in_app_or in Hu. destruct Hu as [Hu|Hu].
      * destruct (B1 u Hu Hf) as [a Ha]. discriminate.
      * exact (B2 u Hu Hf).
    + destruct (fst (days_loop upstream now rest c1 r1 f1))
        as [[c2 r2]|e]; [|trivial].
      destruct H2 as [Hext2 [C2 [rows2 [Hrows2 F2]]]].
      split; [eapply extends_trans; eassumption|]. split.
      * intros u Hu. apply in_app_or in Hu. destruct Hu as [Hu|Hu].
        -- destruct (C1 u Hu) as [i0 [d0 [data [Hi [Hd [Hu' [Hup Hg]]]]]]].
           exists i0, d0, data. split; [destruct Hi as [<-|[]]; now left|].
           repeat split; auto. eapply extends_getitem; eassumption.
        -- destruct (C2 u Hu) as [i0 [d0 [data [Hi H]]]].
           exists i0, d0, data. split; [now right | assumption].
      * exists (rows1 ++ rows2)%list. split.
        { rewrite Hrows2, Hrows1. now rewrite app_assoc. }
        inversion F1 as [|i' row1 l1 l2 [Hd1 [data1 [Hg1 Hr1]]] Hnil]; subst.
        inversion Hnil; subst. simpl. constructor; [|assumption].
        split; [assumption|]. exists data1. split; [|assumption].
        eapply extends_getitem; eassumption.
Qed.

End LoopFacts.

(** ** A whole call of [get_exchanges] *)



Lemma append_inj (p x y : string) : (p ++ x = p ++ y)%string -> x = y.
Proof.
  induction p as [|c p IH]; simpl; [trivial|].
  intros [= H]. auto.
Qed.

Section CallFacts.

Variable upstream : string -> response.

Lemma get_exchanges_unfold (now : N) (days : Z) (f : DataFetcher) :
  get_exchanges upstream now days f =
  match loaded (cache_file f) with
  | Raise e => (Raise e, f)
  | Ok c0 =>
      match days_loop upstream now (range days) c0 [] f with
      | (Ok (c', table), f1) =>
          (Ok (currencies f1, table), set_cache_file (Content c') f1)
      | (Raise e, f1) => (Raise e, f1)
      end
  end.
Proof.
  unfold get_exchanges, bind, load_from_cache, load_json_sync, loaded,
    save_to_cache, dump_json_sync, modify, gets, ret.
  destruct (cache_file f) as [| |j]; try reflexivity.
  - destruct (days_loop upstream now (range days) (JDict []) [] f)
      as [[[c r]|e] f1]; reflexivity.
  - destruct (days_loop upstream now (range days) j [] f)
      as [[[c r]|e] f1]; reflexivity.
Qed.

(** The requests added by a call, the snapshot it loaded and its outcome. *)
Lemma get_exchanges_post (now : N) (days : Z) (f : DataFetcher) (c0 : json) :
  loaded (cache_file f) = Ok c0 ->
  exists new r,
    requests (snd (get_exchanges upstream now days f))
    = (requests f ++ new)%list
    /\ loop_post upstream now (range days) c0 [] f r new
    /\ match r with
       | Ok (c', table) =>
           fst (get_exchanges upstream now days f) = Ok (currencies f, table)
           /\ cache_file (snd (get_exchanges upstream now days f)) = Content c'
       | Raise e =>
           fst (get_exchanges upstream now days f) = Raise e
           /\ cache_file (snd (get_exchanges upstream now days f))
              = cache_file f
       end.
Proof.
  intros Hl. rewrite get_exchanges_unfold, Hl.
  destruct (days_loop_post upstream now (range days) c0 [] f) as [new [Hreq Hp]].
  pose proof (days_loop_frame upstream now (range days) c0 [] f) as [_ [Hc Hf]].
  destruct (days_loop upstream now (range days) c0 [] f) as [r f1].
  simpl in *. exists new, r. destruct r as [[c' table]|e]; simpl.
  - split; [assumption|]. split; [assumption|]. now rewrite Hc.
  - split; [assumption|]. split; [assumption|]. now split.
Qed.


(** C4, as the code has it.  After a call that returns, and during which
    no other cycle has saved the store, the cache file holds a store in which
    every entry of the store loaded at the start is still present with the
    payload it had, and in which every date requested during the call is
    present with the payload the upstream gave for it. *)
Theorem cache_only_grows :
  forall (now : N) (days : Z) (f : DataFetcher) (headers : list string)
    (table : list (string * rates)),
    fst (get_exchanges upstream now days f) = Ok (headers, table) ->
    exists c0 c' new,
      loaded (cache_file f) = Ok c0
      /\ cache_file (snd (get_exchanges upstream now days f)) = Content c'
      /\ requests (snd (get_exchanges upstream now days f))
         = (requests f ++ new)%list
      /\ extends c0 c'
      /\ (forall date_ data, Py.getitem c0 date_ = Ok data ->
            Py.getitem c' date_ = Ok data)
      /\ (forall u, In u new ->
            exists date_ data, u = (base_url f ++ date_)%string
              /\ upstream u = Status 200 (Json data)
              /\ Py.getitem c' date_ = Ok data).
Proof.
  intros now days f headers table Hok.
  destruct (loaded (cache_file f)) as [c0|e] eqn:Hl.
  2:{ rewrite get_exchanges_unfold, Hl in Hok. discriminate. }
  destruct (get_exchanges_post now days f c0 Hl) as [new [r [Hreq [Hp Hr]]]].
  destruct r as [[c' table']|e]; destruct Hr as [Hfst Hfile];
    rewrite Hfst in Hok; [|discriminate].
  destruct Hp as [_ [_ [Hext [C _]]]].
  exists c0, c', new. repeat split; try assumption.
  - intros date_ data. now apply extends_getitem.
  - intros u Hu. destruct (C u Hu) as [i [d [data [_ [_ H]]]]].
    exists d, data. exact H.
Qed.


End CallFacts.


(** The same call returns, so the store it leaves holds both dates. *)
Lemma cache_only_grows_witness :
  exists c',
    cache_file (snd (get_exchanges Sample.healthy Sample.now 2
                       (init_fetcher BASE_URL Sample.cached)))
    = Content c'
    /\ Py.getitem c' "02.11.2026" = Ok (Sample.payload "02.11.2026").
Proof.
  destruct (cache_only_grows Sample.healthy Sample.now 2
              (init_fetcher BASE_URL Sample.cached)
              ["USD"; "EUR"]
              (snd (match fst (get_exchanges Sample.healthy Sample.now 2
                                 (init_fetcher BASE_URL Sample.cached)) with
                    | Ok p => p
                    | Raise _ => ([], [])
                    end)))
    as [c0 [c' [new [Hl [Hfile [_ [_ [Hold _]]]]]]]].
  - vm_compute. reflexivity.
  - exists c'. split; [exact Hfile|].
    apply Hold. vm_compute in Hl. injection Hl as <-. reflexivity.
Defined.

(** ** Dispatch of one message *)

Lemma requested_days_cases (args : list string) :
  requested_days args
  = match args with
    | _ :: t1 :: _ =>
        if PyStr.isdigit t1 && (PyStr.max_str_digits <? String.length t1)%nat
        then Raise ValueError
        else Ok (token_days t1)
    | _ => Ok 1
    end.
Proof.
  destruct args as [|a0 [|a1 rest]]; try reflexivity.
  unfold requested_days, token_days, PyStr.int, clamp. simpl.
  destruct (PyStr.isdigit a1); [|reflexivity]. simpl.
  destruct (PyStr.max_str_digits <? String.length a1)%nat; reflexivity.
Qed.

Lemma requested_days_short (line : string) :
  short_number line = true ->
  requested_days (PyStr.split line)
  = Ok (match PyStr.split line with _ :: t1 :: _ => token_days t1 | _ => 1 end).
Proof.
  unfold short_number. rewrite requested_days_cases.
  destruct (PyStr.split line) as [|a0 [|a1 rest]]; try reflexivity.
  rewrite Nat.ltb_antisym.
  destruct (PyStr.isdigit a1); [|reflexivity]. simpl.
  now intros ->.
Qed.

Lemma requested_days_long (line : string) :
  short_number line = false ->
  requested_days (PyStr.split line) = Raise ValueError.
Proof.
  unfold short_number. rewrite requested_days_cases.
  destruct (PyStr.split line) as [|a0 [|a1 rest]]; try discriminate.
  rewrite Nat.ltb_antisym.
  destruct (PyStr.isdigit a1); [|discriminate]. simpl.
  now intros ->.
Qed.

Lemma requested_days_range (args : list string) (days : Z) :
  requested_days args = Ok days -> 1 <= days <= 10.
Proof.
  rewrite requested_days_cases.
  destruct args as [|a0 [|a1 rest]]; try (intros [= <-]; lia).
  destruct (PyStr.isdigit a1 && (PyStr.max_str_digits <? String.length a1)%nat);
    [discriminate|].
  intros [= <-]. unfold token_days, clamp. destruct (PyStr.isdigit a1); lia.
Qed.

Section DispatchFacts.

Variable upstream : string -> response.
Variable template :
  list string -> list (string * rates) -> list string -> Z -> string.

(** On a line whose numeral, if any, [int] converts, the dispatch of
    [handle_messages] is the command grammar followed by the action of the
    command. *)
Lemma handle_message_classified (env : nat -> list reg_event) (now : N)
  (w : ws) (line : string) (s : Server) :
  short_number line = true ->
  handle_message upstream template env now w line s
  = run_command upstream template env now w line (classify_spec line) s.
Proof.
  intros Hshort. pose proof (requested_days_short line Hshort) as Hdays.
  unfold handle_message, classify_spec.
  destruct (PyStr.startswith line "exchange"); [|reflexivity].
  unfold exchange_command.
  assert (Hshow : forall args d,
            requested_days args = Ok d ->
            bind
              (try_except_http
                 (bind (lift (requested_days args)) (fun days =>
                  bind (on_fetcher (get_exchanges upstream now days))
                    (fun x => let '(headers, exchanges) := x in
                              send w (make_table template headers exchanges))))
                 (fun err =>
                    bind (logging_error err)
                      (fun _ => send w "Something went wrong")))
              (fun _ => log_exchange w line) s
            = run_command upstream template env now w line (ShowExchange d) s).
  { intros args d ->. reflexivity. }
  destruct (PyStr.split line) as [|a0 [|a1 [|a2 rest]]] eqn:Es.
  - apply Hshow. reflexivity.
  - apply Hshow. reflexivity.
  - apply Hshow. exact Hdays.
  - cbn [List.length Nat.ltb Nat.leb andb nth].
    destruct (String.eqb (PyStr.lower a1) "add"); [reflexivity|].
    destruct (String.eqb (PyStr.lower a1) "remove"); [reflexivity|].
    apply Hshow. exact Hdays.
Qed.


(** A show-exchange line whose numeral is too long for [int]: [ValueError]
    leaves the handler and nothing has happened. *)
Lemma show_exchange_long (env : nat -> list reg_event) (now : N) (w : ws)
  (line : string) (s : Server) (days : Z) :
  classify_spec line = ShowExchange days ->
  short_number line = false ->
  handle_message upstream template env now w line s = (Raise ValueError, s).
Proof.
  intros Hc Hlong. pose proof (requested_days_long line Hlong) as Hd.
  unfold handle_message. unfold classify_spec in Hc.
  destruct (PyStr.startswith line "exchange"); [|discriminate].
  unfold exchange_command.
  assert (Hshow : forall args,
            requested_days args = Raise ValueError ->
            bind
              (try_except_http
                 (bind (lift (requested_days args)) (fun days =>
                  bind (on_fetcher (get_exchanges upstream now days))
                    (fun x => let '(headers, exchanges) := x in
                              send w (make_table template headers exchanges))))
                 (fun err =>
                    bind (logging_error err)
                      (fun _ => send w "Something went wrong")))
              (fun _ => log_exchange w line) s
            = (Raise ValueError, s)).
  { intros args Ha. unfold bind, try_except_http, lift. now rewrite Ha. }
  destruct (PyStr.split line) as [|a0 [|a1 [|a2 rest]]];
    try (apply Hshow; exact Hd).
  cbn [List.length Nat.ltb Nat.leb andb nth].
  destruct (String.eqb (PyStr.lower a1) "add"); [discriminate|].
  destruct (String.eqb (PyStr.lower a1) "remove"); [discriminate|].
  apply Hshow. exact Hd.
Qed.

(** A show-exchange command whose call of [get_exchanges] raises
    [HttpError]: the sender gets the fixed text and nothing else happens to
    the fetcher. *)
Lemma show_exchange_http (env : nat -> list reg_event) (now : N) (w : ws)
  (line : string) (s : Server) (days : Z) (a : list string) :
  short_number line = true ->
  classify_spec line = ShowExchange days ->
  fst (get_exchanges upstream now days (fetcher s)) = Raise (HttpError a) ->
  handle_message upstream template env now w line s
  = (Ok tt,
     mkServer (clients s)
       (snd (get_exchanges upstream now days (fetcher s)))
       (log_exchange_file s ++ [(w, line)])%list
       (sent s ++ [(w, "Something went wrong")])%list
       (error_log s ++ [HttpError a])%list (closed s)).
Proof.
  intros Hs Hc Hr. rewrite (handle_message_classified _ _ _ _ _ Hs), Hc.
  unfold run_command, try_except_http, bind, on_fetcher.
  destruct (get_exchanges upstream now days (fetcher s)) as [r f1].
  simpl in Hr. subst r. reflexivity.
Qed.


End DispatchFacts.

(** ** The days of a table *)






Section TableFacts.

Variable upstream : string -> response.
Variable template :
  list string -> list (string * rates) -> list string -> Z -> string.



End TableFacts.


(** ** Broadcast *)

Lemma apply_events_frame (l : list reg_event) (s : Server) :
  fetcher (apply_events l s) = fetcher s
  /\ log_exchange_file (apply_events l s) = log_exchange_file s
  /\ sent (apply_events l s) = sent s
  /\ error_log (apply_events l s) = error_log s.
Proof.
  revert s. induction l as [|e l IH]; intros s; [repeat split|].
  simpl. destruct (IH (apply_event s e)) as [A [B [C D]]].
  rewrite A, B, C, D. destruct e; repeat split.
Qed.

Lemma skipn_nth_error {A : Type} (l : list A) (n : nat) (a : A) :
  nth_error l n = Some a -> skipn n l = a :: skipn (S n) l.
Proof.
  revert n. induction l as [|x l IH]; intros [|n]; simpl; try discriminate.
  - now intros [= ->].
  - intros H. now apply IH.
Qed.

Lemma all_open_In (s : Server) (c : ws) :
  all_open s = true -> In c (clients s) -> closed_how c s = None.
Proof.
  unfold all_open. rewrite forallb_forall. intros H Hc.
  specialize (H c Hc). now destruct (closed_how c s).
Qed.

(** With nothing happening meanwhile and every client open, the loop sends
    the message to the clients from position [pos] on, in order, and changes
    nothing else. *)
Lemma send_loop_quiet (message : string) (remaining : nat) :
  forall (pos : nat) (s : Server),
    all_open s = true ->
    List.length (clients s) = (pos + remaining)%nat ->
    send_loop quiet message (List.length (clients s)) remaining pos s
    = (Ok tt,
       mkServer (clients s) (fetcher s) (log_exchange_file s)
         (sent s ++ map (fun c => (c, message)) (skipn pos (clients s)))%list
         (error_log s) (closed s)).
Proof.
  induction remaining as [|r IH]; intros pos s Hopen Hlen; simpl.
  - rewrite Nat.eqb_refl. rewrite skipn_all2 by lia. simpl.
    rewrite app_nil_r. now destruct s.
  - rewrite Nat.eqb_refl.
    destruct (nth_error (clients s) pos) as [c|] eqn:En.
    2:{ apply nth_error_None in En. lia. }
    unfold client_send.
    rewrite (all_open_In s c Hopen (nth_error_In _ _ En)).
    unfold send, modify. cbn [apply_events quiet fold_left].
    set (s1 := mkServer (clients s) (fetcher s) (log_exchange_file s)
                 (sent s ++ [(c, message)])%list (error_log s) (closed s)).
    change (List.length (clients s)) with (List.length (clients s1)).
    rewrite (IH (S pos) s1) by (try exact Hopen; simpl; lia).
    simpl. rewrite (skipn_nth_error _ _ _ En). simpl.
    now rewrite <- app_assoc.
Qed.

Lemma send_to_clients_quiet (message : string) (s : Server) :
  all_open s = true ->
  send_to_clients quiet message s
  = (Ok tt,
     mkServer (clients s) (fetcher s) (log_exchange_file s)
       (sent s ++ map (fun c => (c, message)) (clients s))%list
       (error_log s) (closed s)).
Proof.
  intros Hopen. unfold send_to_clients. destruct (clients s) as [|c l] eqn:E.
  - simpl. rewrite app_nil_r. destruct s; simpl in *. now subst.
  - rewrite <- E.
    rewrite (send_loop_quiet message _ 0%nat s Hopen) by reflexivity.
    reflexivity.
Qed.

(** Whatever happens meanwhile, the loop touches neither the fetcher nor the
    exchange log, and everything it sends is the message. *)
Lemma send_loop_frame (env : nat -> list reg_event) (message : string)
  (used remaining : nat) :
  forall (pos : nat) (s : Server),
    let s' := snd (send_loop env message used remaining pos s) in
    fetcher s' = fetcher s
    /\ log_exchange_file s' = log_exchange_file s
    /\ exists l, sent s' = (sent s ++ l)%list
         /\ forall c m, In (c, m) l -> m = message.
Proof.
  assert (Hnone : forall s : Server,
            fetcher s = fetcher s /\ log_exchange_file s = log_exchange_file s
            /\ exists l, sent s = (sent s ++ l)%list
                 /\ forall (c : ws) (m : string), In (c, m) l -> m = message).
  { intros s. split; [reflexivity|]. split; [reflexivity|]. exists [].
    rewrite app_nil_r. split; [reflexivity | intros c m []]. }
  induction remaining as [|r IH]; intros pos s; simpl.
  - destruct (Nat.eqb (List.length (clients s)) used); simpl; apply Hnone.
  - destruct (Nat.eqb (List.length (clients s)) used); simpl;
      [|apply Hnone].
    destruct (nth_error (clients s) pos) as [c|]; simpl; [|apply Hnone].
    unfold client_send.
    destruct (closed_how c s) as [[|]|]; simpl; try apply Hnone.
    match goal with
    | |- context [send_loop env message used r (S pos) ?s1] =>
        destruct (IH (S pos) s1) as [A [B [l [C D]]]];
        destruct (apply_events_frame (env pos)
                    (mkServer (clients s) (fetcher s) (log_exchange_file s)
                       (sent s ++ [(c, message)])%list (error_log s)
                       (closed s)))
          as [A' [B' [C' _]]]
    end.
    unfold send, modify in *. simpl in *.
    rewrite A, B, C, A', B', C'. simpl.
    split; [reflexivity|]. split; [reflexivity|].
    exists ((c, message) :: l). split; [now rewrite <- app_assoc|].
    intros c0 m [[= _ <-]|H]; [reflexivity | eauto].
Qed.

Lemma send_to_clients_frame (env : nat -> list reg_event) (message : string)
  (s : Server) :
  let s' := snd (send_to_clients env message s) in
  fetcher s' = fetcher s
  /\ log_exchange_file s' = log_exchange_file s
  /\ exists l, sent s' = (sent s ++ l)%list
       /\ forall c m, In (c, m) l -> m = message.
Proof.
  unfold send_to_clients. destruct (clients s) as [|c l] eqn:E.
  - simpl. split; [reflexivity|]. split; [reflexivity|]. exists [].
    rewrite app_nil_r. split; [reflexivity | intros c m []].
  - apply send_loop_frame.
Qed.

Section BroadcastFacts.

Variable upstream : string -> response.
Variable template :
  list string -> list (string * rates) -> list string -> Z -> string.

(** C8, as the code has it.  A chat line is sent, as "name: text", once to
    every registered client in turn, the sender included, provided that no
    registered connection has closed and that nothing happens to the other
    sessions while the sends are awaited; nothing else changes. *)
Theorem chat_reaches_all_registered :
  forall (now : N) (w : ws) (line : string) (s : Server),
    PyStr.startswith line "exchange" = false ->
    all_open s = true ->
    handle_message upstream template quiet now w line s
    = (Ok tt,
       mkServer (clients s) (fetcher s) (log_exchange_file s)
         (sent s
          ++ map (fun c => (c, (name w ++ ": " ++ line)%string)) (clients s))%list
         (error_log s) (closed s))
    /\ forall c, In c (clients s) ->
         In (c, (name w ++ ": " ++ line)%string)
           (sent (snd (handle_message upstream template quiet now w line s))).
Proof.
  intros now w line s Hchat Hopen.
  assert (E : handle_message upstream template quiet now w line s
              = send_to_clients quiet (name w ++ ": " ++ line)%string s).
  { unfold handle_message. now rewrite Hchat. }
  rewrite E, (send_to_clients_quiet _ s Hopen). split; [reflexivity|].
  intros c Hc. simpl. apply in_or_app. right.
  apply in_map_iff. now exists c.
Qed.

End BroadcastFacts.

(** Alice, Bob and Carol are registered and Alice says "hello". *)
Lemma chat_reaches_all_registered_witness :
  sent (snd (handle_message Sample.upstream Sample.template quiet Sample.now
               Sample.alice "hello" (Sample.server Missing)))
  = [(Sample.alice, "Alice Smith: hello"); (Sample.bob, "Alice Smith: hello");
     (Sample.carol, "Alice Smith: hello")].
Proof.
  destruct (chat_reaches_all_registered Sample.upstream Sample.template
              Sample.now Sample.alice "hello" (Sample.server Missing))
    as [H _].
  - reflexivity.
  - reflexivity.
  - rewrite H. reflexivity.
Defined.

(** C8, as stated, fails: Alice, Bob and Carol are registered when Alice says
    "hello"; Dave registers while the first send is awaited; the iteration
    over the live set then raises [RuntimeError], and Bob and Carol, who were
    registered when the message was sent, never get it. *)
Lemma join_during_broadcast_breaks_it :
  fst (handle_message Sample.upstream Sample.template Sample.dave_joins
         Sample.now Sample.alice "hello" (Sample.server Missing))
  = Raise RuntimeError
  /\ sent (snd (handle_message Sample.upstream Sample.template
                  Sample.dave_joins Sample.now Sample.alice "hello"
                  (Sample.server Missing)))
     = [(Sample.alice, "Alice Smith: hello")]
  /\ In Sample.bob (clients (Sample.server Missing))
  /\ ~ In (Sample.bob, "Alice Smith: hello")
         (sent (snd (handle_message Sample.upstream Sample.template
                       Sample.dave_joins Sample.now Sample.alice "hello"
                       (Sample.server Missing)))).
Proof.
  split; [reflexivity|]. split; [reflexivity|].
  split; [right; left; reflexivity|].
  intros [H|[]]. discriminate H.
Qed.

(** ** Commands and their failures *)

Section CommandFacts.

Variable upstream : string -> response.
Variable template :
  list string -> list (string * rates) -> list string -> Z -> string.

(** What the [try] block can do to the server: it sends at most one
    message, to the sender, and leaves the set of clients alone. *)
Lemma exchange_command_answers (now : N) (w : ws) (line : string)
  (s : Server) :
  let s1 := snd (exchange_command upstream template now w line s) in
  clients s1 = clients s
  /\ exists l, sent s1 = (sent s ++ l)%list
       /\ forall c m, In (c, m) l -> c = w.
Proof.
  assert (Hnone : forall f1,
            clients (set_fetcher f1 s) = clients s
            /\ exists l, sent (set_fetcher f1 s) = (sent s ++ l)%list
                 /\ forall c (m : string), In (c, m) l -> c = w).
  { intros f1. split; [reflexivity|]. exists []. simpl.
    rewrite app_nil_r. split; [reflexivity | intros c m []]. }
  assert (Hone : forall f1 msg,
            clients (snd (send w msg (set_fetcher f1 s))) = clients s
            /\ exists l, sent (snd (send w msg (set_fetcher f1 s)))
                         = (sent s ++ l)%list
                 /\ forall c (m : string), In (c, m) l -> c = w).
  { intros f1 msg. split; [reflexivity|]. exists [(w, msg)]. simpl.
    split; [reflexivity|]. intros c m [[= <- _]|[]]. reflexivity. }
  unfold exchange_command.
  destruct ((2 <? List.length (PyStr.split line))%nat
            && String.eqb (PyStr.lower (nth 1 (PyStr.split line) "")) "add").
  { unfold bind, on_fetcher.
    destruct (add_currency (PyStr.upper (nth 2 (PyStr.split line) ""))
                (fetcher s)) as [[msg|e] f1]; [apply Hone | apply Hnone]. }
  destruct ((2 <? List.length (PyStr.split line))%nat
            && String.eqb (PyStr.lower (nth 1 (PyStr.split line) "")) "remove").
  { unfold bind, on_fetcher.
    destruct (remove_currency (PyStr.upper (nth 2 (PyStr.split line) ""))
                (fetcher s)) as [[msg|e] f1]; [apply Hone | apply Hnone]. }
  unfold bind, lift, on_fetcher.
  destruct (requested_days (PyStr.split line)) as [days|e].
  2:{ simpl. split; [reflexivity|]. exists []. rewrite app_nil_r.
      split; [reflexivity | intros c m []]. }
  destruct (get_exchanges upstream now days (fetcher s))
    as [[[headers table]|e] f1]; [apply Hone | apply Hnone].
Qed.

(** What an exchange command can send: at most one message, to its sender. *)
Lemma exchange_line_answers_sender (env : nat -> list reg_event) (now : N)
  (w : ws) (line : string) (s : Server) :
  PyStr.startswith line "exchange" = true ->
  let s' := snd (handle_message upstream template env now w line s) in
  clients s' = clients s
  /\ exists l, sent s' = (sent s ++ l)%list /\ forall c m, In (c, m) l -> c = w.
Proof.
  intros Hx. unfold handle_message. rewrite Hx.
  pose proof (exchange_command_answers now w line s) as [Hc [l [Hs Hl]]].
  unfold try_except_http, bind.
  destruct (exchange_command upstream template now w line s) as [[u|e] s1];
    cbn [fst snd] in *.
  - simpl. split; [assumption|]. now exists l.
  - destruct e; simpl; try (split; [assumption|]; now exists l).
    split; [assumption|]. exists (l ++ [(w, "Something went wrong")])%list.
    split; [rewrite Hs; now rewrite <- app_assoc|].
    intros c m Hin. apply in_app_or in Hin.
    destruct Hin as [Hin|[[= <- _]|[]]]; [eauto | reflexivity].
Qed.



End CommandFacts.




(** ** Numerals with two decimals *)

Lemma digit_char_isdigit (n : Z) : PyStr.isdigit_char (PyStr.digit_char n) = true.
Proof.
  unfold PyStr.isdigit_char, PyStr.digit_char, PyStr.code.
  pose proof (Z.mod_pos_bound n 10 ltac:(lia)) as H.
  rewrite nat_ascii_embedding by lia.
  apply andb_true_intro. split; apply Nat.leb_le; lia.
Qed.

Lemma string_of_uint_digits (u : Decimal.uint) :
  PyStr.all_chars PyStr.isdigit_char (NilEmpty.string_of_uint u) = true.
Proof. induction u; simpl; auto. Qed.

Lemma decimal_digits (n : Z) :
  PyStr.all_chars PyStr.isdigit_char (PyStr.decimal n) = true
  /\ PyStr.decimal n <> EmptyString.
Proof.
  unfold PyStr.decimal, NilZero.string_of_uint.
  destruct (N.to_uint (Z.to_N n)) as [|u|u|u|u|u|u|u|u|u|u];
    (split; [|discriminate]);
    try reflexivity;
    apply (string_of_uint_digits (Decimal.D0 u))
    || apply (string_of_uint_digits (Decimal.D1 u))
    || apply (string_of_uint_digits (Decimal.D2 u))
    || apply (string_of_uint_digits (Decimal.D3 u))
    || apply (string_of_uint_digits (Decimal.D4 u))
    || apply (string_of_uint_digits (Decimal.D5 u))
    || apply (string_of_uint_digits (Decimal.D6 u))
    || apply (string_of_uint_digits (Decimal.D7 u))
    || apply (string_of_uint_digits (Decimal.D8 u))
    || apply (string_of_uint_digits (Decimal.D9 u)).
Qed.

Lemma isdigit_not_point (c : ascii) :
  PyStr.isdigit_char c = true -> Ascii.eqb c "." = false.
Proof.
  intros H. destruct (Ascii.eqb_spec c "."); [subst; discriminate H | reflexivity].
Qed.

Lemma isdigit_not_minus (c : ascii) :
  PyStr.isdigit_char c = true -> Ascii.eqb c "-" = false.
Proof.
  intros H. destruct (Ascii.eqb_spec c "-"); [subst; discriminate H | reflexivity].
Qed.

Lemma digits_point_2_digits (ip : string) (a b : ascii) :
  PyStr.all_chars PyStr.isdigit_char ip = true ->
  PyStr.isdigit_char a = true -> PyStr.isdigit_char b = true ->
  forall seen, (seen = true \/ ip <> EmptyString) ->
    digits_point_2 seen (ip ++ String "." (String a (String b EmptyString)))
    = true.
Proof.
  intros Hip Ha Hb. induction ip as [|c ip IH]; intros seen Hseen.
  - destruct Hseen as [->|H]; [|congruence].
    simpl. now rewrite Ha, Hb.
  - simpl in Hip. apply andb_prop in Hip. destruct Hip as [Hc Hip].
    cbn [append digits_point_2]. rewrite (isdigit_not_point c Hc), Hc.
    simpl. apply IH; [assumption | now left].
Qed.

Lemma fixed2_two_decimals (n : Z) (d : positive) :
  two_decimals (Py.fixed2 n d) = true.
Proof.
  unfold Py.fixed2.
  set (centi := Py.round_half_even (100 * Z.abs n) (Z.pos d)).
  destruct (decimal_digits (centi / 100)) as [Hdig Hne].
  pose proof (digits_point_2_digits (PyStr.decimal (centi / 100))
                (PyStr.digit_char (centi / 10)) (PyStr.digit_char centi)
                Hdig (digit_char_isdigit _) (digit_char_isdigit _) false
                (or_intror Hne)) as H.
  destruct (n <? 0).
  - exact H.
  - cbn [append]. destruct (PyStr.decimal (centi / 100)) as [|c ip] eqn:E;
      [congruence|].
    simpl in Hdig. apply andb_prop in Hdig. destruct Hdig as [Hc _].
    cbn [append two_decimals] in *. rewrite (isdigit_not_minus c Hc).
    exact H.
Qed.

(** ** Rows of a day *)

Lemma small_int_is_float (z : Z) :
  Z.abs z < 2 ^ 53 -> Py.float_of_int z = Ok (FFin z 1).
Proof.
  intros H. unfold Py.float_of_int.
  assert (Hk : Z.log2 (Z.abs z) - 52 <= 0).
  { destruct (Z.eq_dec (Z.abs z) 0) as [->|Hz]; [simpl; lia|].
    assert (Z.log2 (Z.abs z) < 53) by (apply Z.log2_lt_pow2; lia). lia. }
  apply Z.leb_le in Hk. cbv zeta. now rewrite Hk.
Qed.

Lemma rate_text_shown (e : list (string * json)) (key : string) :
  rate_field_ok e key = true -> rate_text (JDict e) key = Ok (shown e key).
Proof.
  unfold rate_field_ok, rate_text, shown, Py.get, rbind.
  destruct (dict_get key e) as [v|]; [|reflexivity].
  destruct v as [|b|z|[| |n d]|s|l|d]; try reflexivity; try discriminate.
  - unfold rate_number. destruct (Z.abs z <? 2 ^ 53) eqn:Ez; [|discriminate].
    intros _. apply Z.ltb_lt in Ez. unfold Py.truthy.
    destruct (z =? 0); [reflexivity|]. unfold Py.format_2f.
    now rewrite (small_int_is_float z Ez).
  - intros _. unfold rate_number, Py.truthy.
    destruct (n =? 0); reflexivity.
Qed.

Lemma shown_shape (e : list (string * json)) (key : string) :
  shown e key = no_data \/ two_decimals (shown e key) = true.
Proof.
  unfold shown. destruct (dict_get key e) as [v|]; [|now left].
  destruct (rate_number v) as [[n d]|]; [|now left].
  destruct (n =? 0); [now left | right; apply fixed2_two_decimals].
Qed.

Lemma blank_rates_get (c : string) (tracked : list string) :
  forall acc : rates,
    dict_get c (fold_left (fun d x => dict_set x blank_row d) tracked acc)
    = if str_in c tracked then Some blank_row else dict_get c acc.
Proof.
  induction tracked as [|x l IH]; intros acc; [reflexivity|].
  cbn [fold_left]. rewrite IH. unfold str_in. cbn [existsb].
  fold (str_in c l). destruct (str_in c l); [now rewrite orb_true_r|].
  rewrite orb_false_r. destruct (String.eqb c x) eqn:E.
  - apply String.eqb_eq in E. subst x. apply dict_get_set_same.
  - apply String.eqb_neq in E. now apply dict_get_set_other.
Qed.

Lemma find_last {A : Type} (p : A -> bool) (l : list A) (x : A) :
  find p (l ++ [x])
  = match find p l with
    | Some y => Some y
    | None => if p x then Some x else None
    end.
Proof.
  induction l as [|a l IH]; simpl; [reflexivity|].
  destruct (p a); [reflexivity | exact IH].
Qed.

Lemma rate_step_entry (tracked : list string) (acc : rates)
  (e : list (string * json)) :
  entry_ok (JDict e) = true ->
  rate_step tracked acc (JDict e)
  = Ok (match dict_get "currency" e with
        | Some (JStr c) =>
            if str_in c tracked then dict_set c (row_of e) acc else acc
        | _ => acc
        end).
Proof.
  unfold entry_ok. intros H.
  apply andb_prop in H. destruct H as [H Hn].
  apply andb_prop in H. destruct H as [Hb Hs].
  unfold rate_step, Py.get. cbn [rbind].
  destruct (dict_get "currency" e) as [[|b|z|f|c|l|d]|]; try reflexivity.
  destruct (str_in c tracked); [|reflexivity].
  rewrite (rate_text_shown e _ Hb), (rate_text_shown e _ Hs),
    (rate_text_shown e _ Hn).
  reflexivity.
Qed.

(** The loop over well-formed entries returns, and the row it leaves for a
    tracked currency is that of the last entry naming it. *)
Lemma rate_loop_rows (tracked : list string) (items : list json) :
  forallb entry_ok items = true ->
  forall acc : rates,
  exists r,
    rate_loop tracked acc items = Ok r
    /\ forall c,
         dict_get c r
         = match entry_for c items with
           | Some (JDict e) =>
               if str_in c tracked then Some (row_of e) else dict_get c acc
           | _ => dict_get c acc
           end.
Proof.
  induction items as [|x rest IH]; intros Hok acc.
  - exists acc. split; reflexivity.
  - cbn [forallb] in Hok. apply andb_prop in Hok. destruct Hok as [Hx Hrest].
    destruct x as [|b|z|f|s|l|e]; try discriminate Hx.
    cbn [rate_loop]. rewrite (rate_step_entry tracked acc e Hx). cbn [rbind].
    match goal with
    | |- context [rate_loop tracked ?acc1 rest] =>
        destruct (IH Hrest acc1) as [r [Hr Hget]]
    end.
    exists r. split; [exact Hr|].
    intros c. rewrite Hget. unfold entry_for. cbn [rev]. rewrite find_last.
    destruct (find (names_currency c) (rev rest)) as [y|] eqn:Ef.
    + destruct y as [|b|z|f|s|l|e']; try reflexivity.
      * apply find_some in Ef. destruct Ef as [_ Ef]. discriminate Ef.
      * apply find_some in Ef. destruct Ef as [_ Ef]. discriminate Ef.
      * apply find_some in Ef. destruct Ef as [_ Ef]. discriminate Ef.
      * apply find_some in Ef. destruct Ef as [_ Ef]. discriminate Ef.
      * apply find_some in Ef. destruct Ef as [_ Ef]. discriminate Ef.
      * apply find_some in Ef. destruct Ef as [_ Ef]. discriminate Ef.
      * destruct (str_in c tracked) eqn:Et; [reflexivity|].
        destruct (dict_get "currency" e) as [[|b|z|f|c'|l|d]|];
          try reflexivity.
        destruct (str_in c' tracked) eqn:Et'; [|reflexivity].
        apply dict_get_set_other. intros ->. congruence.
    + unfold names_currency at 1.
      destruct (dict_get "currency" e) as [[|b|z|f|c'|l|d]|];
        try reflexivity.
      destruct (String.eqb c' c) eqn:Ec.
      * apply String.eqb_eq in Ec. subst c'.
        destruct (str_in c tracked); [apply dict_get_set_same | reflexivity].
      * apply String.eqb_neq in Ec.
        destruct (str_in c' tracked); [|reflexivity].
        apply dict_get_set_other. congruence.
Qed.

(** C7. For a payload whose "exchangeRate" is a list of entries with
    well-formed rate fields (absent, null or a number), the record of the day
    has a row for every tracked currency and for no other; the row of a
    tracked currency is that of the last entry naming it, or three sentinels
    when no entry names it; and each field of a row is the sentinel when the
    entry lacks the field or holds null or zero there, and the rate with
    exactly two decimals otherwise. *)
Theorem day_rates_normalised :
  forall (tracked : list string) (date_data : json) (items : list json),
    Py.getitem date_data "exchangeRate" = Ok (JList items) ->
    forallb entry_ok items = true ->
    exists r,
      day_rates tracked date_data = Ok r
      /\ (forall c, dict_has c r = true <-> In c tracked)
      /\ (forall c, In c tracked -> dict_get c r = Some (row_for c items))
      /\ (forall c row, dict_get c r = Some row ->
            field_shape (buy row) /\ field_shape (sell row)
            /\ field_shape (NBU row))
      /\ (forall e key,
            shown e key
            = match dict_get key e with
              | Some v =>
                  match rate_number v with
                  | Some (n, d) => if n =? 0 then no_data else Py.fixed2 n d
                  | None => no_data
                  end
              | None => no_data
              end)
      /\ (forall n d, two_decimals (Py.fixed2 n d) = true
                      /\ two_decimals no_data = false).
Proof.
  intros tracked date_data items Hget Hok.
  destruct (rate_loop_rows tracked items Hok (blank_rates tracked))
    as [r [Hr Hrow]].
  assert (Hrow' : forall c,
            dict_get c r
            = if str_in c tracked then Some (row_for c items) else None).
  { intros c. rewrite Hrow. unfold row_for, blank_rates.
    rewrite blank_rates_get.
    destruct (entry_for c items) as [[|b|z|f|s|l|e]|];
      destruct (str_in c tracked); reflexivity. }
  exists r. split.
  { unfold day_rates. rewrite Hget. cbn [rbind Py.iter]. exact Hr. }
  split; [|split; [|split; [|split]]].
  - intros c. unfold dict_has. rewrite Hrow', <- str_in_In.
    destruct (str_in c tracked); split; congruence.
  - intros c Hc. rewrite Hrow'. apply str_in_In in Hc. now rewrite Hc.
  - intros c row. rewrite Hrow'. destruct (str_in c tracked); [|discriminate].
    intros [= <-]. unfold row_for.
    destruct (entry_for c items) as [[|b|z|f|s|l|e]|];
      try (repeat split; now left).
    repeat split; apply shown_shape.
  - reflexivity.
  - intros n d. split; [apply fixed2_two_decimals | reflexivity].
Qed.

(** The sample payload lists GBP, USD and EUR; USD and EUR are tracked. *)
Lemma day_rates_normalised_witness :
  exists r,
    day_rates ["USD"; "EUR"] (Sample.payload "03.11.2026") = Ok r
    /\ dict_get "USD" r = Some (mkRate "36.95" "37.45" "36.57")
    /\ dict_get "EUR" r = Some (mkRate "---" "---" "40.00")
    /\ dict_has "GBP" r = false.
Proof.
  destruct (day_rates_normalised ["USD"; "EUR"] (Sample.payload "03.11.2026")
              [Sample.gbp_row; Sample.usd_row; Sample.eur_row])
    as [r [Hr [Hkeys [Hrows _]]]].
  - reflexivity.
  - reflexivity.
  - exists r. split; [exact Hr|]. split; [|split].
    + rewrite (Hrows "USD"); [reflexivity | now left].
    + rewrite (Hrows "EUR"); [reflexivity | right; now left].
    + destruct (dict_has "GBP" r) eqn:E; [|reflexivity].
      apply Hkeys in E. destruct E as [E|[E|[]]]; discriminate E.
Defined.

(** * Further properties of the fetcher *)

Lemma list_remove_last (x : string) (l : list string) :
  ~ In x l -> list_remove x (l ++ [x]) = l.
Proof.
  induction l as [|a l IH]; intros H; simpl.
  - now rewrite String.eqb_refl.
  - destruct (String.eqb x a) eqn:E.
    + apply String.eqb_eq in E. subst a. destruct H. now left.
    + f_equal. apply IH. intros Hin. apply H. now right.
Qed.

Lemma list_remove_filter (x : string) (l : list string) :
  NoDup l -> list_remove x l = filter (fun y => negb (String.eqb x y)) l.
Proof.
  induction 1 as [|a l Ha Hl IH]; simpl; [reflexivity|].
  destruct (String.eqb x a) eqn:E; simpl.
  - apply String.eqb_eq in E. subst a.
    symmetry. apply forallb_filter_id. apply forallb_forall.
    intros y Hy. apply negb_true_iff. apply String.eqb_neq. congruence.
  - now rewrite IH.
Qed.

Lemma list_remove_length (x : string) (l : list string) :
  In x l -> S (List.length (list_remove x l)) = List.length l.
Proof.
  induction l as [|a l IH]; simpl; [tauto|].
  destruct (String.eqb x a) eqn:E; [reflexivity|].
  apply String.eqb_neq in E. intros [H|H]; [congruence|].
  simpl. now rewrite IH.
Qed.

(** Adding a code of the catalogue that is not tracked puts it last, and
    removing it again gives back the fetcher one started from. *)
Theorem add_then_remove_restores :
  forall (code : string) (f : DataFetcher),
    str_in code ALL_CURRENCIES = true ->
    str_in code (currencies f) = false ->
    add_currency code f
    = (Ok (code ++ " was added. " ++ current (currencies f ++ [code]))%string,
       set_currencies (currencies f ++ [code]) f)
    /\ remove_currency code (snd (add_currency code f))
       = (Ok (code ++ " was removed. " ++ current (currencies f))%string, f).
Proof.
  intros code f Hcat Hin.
  assert (Hadd : add_currency code f
                 = (Ok (code ++ " was added. "
                          ++ current (currencies f ++ [code]))%string,
                    set_currencies (currencies f ++ [code]) f)).
  { unfold add_currency. now rewrite Hcat, Hin. }
  split; [exact Hadd|]. rewrite Hadd. cbn [snd].
  unfold remove_currency. cbn [currencies set_currencies].
  assert (Hnow : str_in code (currencies f ++ [code]) = true).
  { apply str_in_In. apply in_or_app. right. now left. }
  rewrite Hnow. apply str_in_false in Hin.
  rewrite (list_remove_last code (currencies f) Hin).
  destruct f; reflexivity.
Qed.

Lemma add_then_remove_restores_witness :
  remove_currency "GBP"
    (snd (add_currency "GBP" (init_fetcher BASE_URL Missing)))
  = (Ok "GBP was removed. Current currencies: USD, EUR",
     init_fetcher BASE_URL Missing).
Proof.
  apply (add_then_remove_restores "GBP" (init_fetcher BASE_URL Missing));
    reflexivity.
Defined.

(** Removing a tracked code from a list without repetitions takes exactly
    that code out: it is tracked no more, the other codes stay in their
    order, and the list is one shorter. *)
Theorem remove_currency_takes_out :
  forall (code : string) (f : DataFetcher),
    NoDup (currencies f) ->
    str_in code (currencies f) = true ->
    let f' := snd (remove_currency code f) in
    currencies f' = filter (fun y => negb (String.eqb code y)) (currencies f)
    /\ str_in code (currencies f') = false
    /\ S (List.length (currencies f')) = List.length (currencies f)
    /\ cache_file f' = cache_file f /\ requests f' = requests f.
Proof.
  intros code f Hnd Hin. unfold remove_currency. rewrite Hin.
  cbn [snd currencies set_currencies cache_file requests].
  split; [now apply list_remove_filter|]. split.
  - apply str_in_false. now apply list_remove_gone.
  - split; [|now split]. apply list_remove_length. now apply str_in_In.
Qed.

Lemma remove_currency_takes_out_witness :
  currencies (snd (remove_currency "USD" (init_fetcher BASE_URL Missing)))
  = ["EUR"].
Proof.
  destruct (remove_currency_takes_out "USD" (init_fetcher BASE_URL Missing))
    as [H _].
  - repeat constructor; simpl; intuition discriminate.
  - reflexivity.
  - rewrite H. reflexivity.
Defined.

(** ** Requests of one call *)

Lemma getitem_contains (c : json) (k : string) (v : json) :
  Py.getitem c k = Ok v -> Py.contains k c = Ok true.
Proof.
  destruct c; try discriminate. simpl. unfold dict_has.
  destruct (dict_get k d); [reflexivity | discriminate].
Qed.

Section RequestFacts.

Variable upstream : string -> response.

Lemma day_body_one_request (now : N) (i : Z) (cache : json)
  (acc : list (string * rates)) (f : DataFetcher) :
  exists new,
    requests (snd (day_body upstream now i cache acc f))
    = (requests f ++ new)%list
    /\ (List.length new <= 1)%nat.
Proof.
  rewrite day_body_cases.
  destruct (Calendar.date_string now i) as [date_|e].
  2:{ exists []. simpl. rewrite app_nil_r. split; [reflexivity | lia]. }
  destruct (Py.contains date_ cache) as [[|]|e].
  3:{ exists []. simpl. rewrite app_nil_r. split; [reflexivity | lia]. }
  - exists []. rewrite app_nil_r. split; [|simpl; lia].
    destruct (Py.getitem cache date_) as [data|e]; [|reflexivity].
    destruct (day_rates (currencies f) data); reflexivity.
  - cbv zeta. exists [(base_url f ++ date_)%string]. split; [|simpl; lia].
    destruct (fst (request upstream (base_url f ++ date_)%string f));
      [|reflexivity].
    destruct (Py.setitem cache date_ a); [|reflexivity].
    destruct (day_rates (currencies f) a); reflexivity.
Qed.

Lemma days_loop_requests (now : N) (indices : list Z) :
  forall (cache : json) (acc : list (string * rates)) (f : DataFetcher),
  exists new,
    requests (snd (days_loop upstream now indices cache acc f))
    = (requests f ++ new)%list
    /\ NoDup new
    /\ (List.length new <= List.length indices)%nat.
Proof.
  induction indices as [|i rest IH]; intros cache acc f.
  - exists []. simpl. rewrite app_nil_r. split; [reflexivity|].
    split; [constructor | lia].
  - destruct (day_body_one_request now i cache acc f) as [new1 [Hreq1 Hlen1]].
    destruct (day_body_post upstream now i cache acc f) as [new1' [Hreq1' H1]].
    rewrite Hreq1 in Hreq1'. apply app_inv_head in Hreq1'. subst new1'.
    pose proof (day_body_frame upstream now i cache acc f) as Hfr.
    cbn [days_loop]. unfold bind.
    destruct (day_body upstream now i cache acc f) as [[[c1 r1]|e] f1];
      cbn [fst snd] in *.
    2:{ exists new1. split; [assumption|]. split; [|simpl; lia].
        destruct new1 as [|u [|v l]]; [constructor| |simpl in Hlen1; lia].
        constructor; [intros [] | constructor]. }
    destruct Hfr as [Hbase _].
    destruct H1 as [_ [_ [_ [C1 _]]]].
    destruct (IH c1 r1 f1) as [new2 [Hreq2 [Hnd2 Hlen2]]].
    destruct (days_loop_post upstream now rest c1 r1 f1)
      as [new2' [Hreq2' [A2 _]]].
    rewrite Hreq2 in Hreq2'. apply app_inv_head in Hreq2'. subst new2'.
    exists (new1 ++ new2)%list. split.
    { rewrite Hreq2, Hreq1. now rewrite app_assoc. }
    split; [|rewrite length_app; simpl; lia].
    destruct new1 as [|u [|v l]]; [exact Hnd2| |simpl in Hlen1; lia].
    simpl. constructor; [|exact Hnd2].
    intros Hin.
    destruct (C1 u (or_introl eq_refl)) as [i0 [d0 [data [_ [_ [Hu [_ Hg]]]]]]].
    destruct (A2 u Hin) as [i1 [d1 [_ [_ [Hu' Hc]]]]].
    rewrite Hbase in Hu'. rewrite Hu in Hu'. apply append_inj in Hu'.
    subst d1. apply getitem_contains in Hg. congruence.
Qed.

Lemma get_exchanges_requests :
  forall (now : N) (days : Z) (f : DataFetcher),
  exists new,
    requests (snd (get_exchanges upstream now days f))
    = (requests f ++ new)%list
    /\ NoDup new
    /\ Z.of_nat (List.length new) <= Z.max 0 days.
Proof.
  intros now days f. rewrite get_exchanges_unfold.
  destruct (loaded (cache_file f)) as [c0|e].
  2:{ exists []. simpl. rewrite app_nil_r. split; [reflexivity|].
      split; [constructor | lia]. }
  destruct (days_loop_requests now (range days) c0 [] f)
    as [new [Hreq [Hnd Hlen]]].
  exists new.
  assert (Hr : (List.length (range days) <= Z.to_nat days)%nat).
  { unfold range. rewrite length_map, length_seq. lia. }
  destruct (days_loop upstream now (range days) c0 [] f)
    as [[[c' table]|e1] f1]; cbn [fst snd] in *;
    (split; [exact Hreq|]; split; [exact Hnd | lia]).
Qed.

(** One call asks the upstream at most once for each day asked for: its
    requests are pairwise different and no more than [days]. *)
Theorem one_request_per_day :
  forall (now : N) (days : Z) (f : DataFetcher),
  exists new,
    requests (snd (get_exchanges upstream now days f))
    = (requests f ++ new)%list
    /\ NoDup new
    /\ Z.of_nat (List.length new) <= Z.max 0 days.
Proof. exact get_exchanges_requests. Qed.

(** ** Calls served from the cache *)

Lemma days_loop_cached (now : N) (cache : json) (f : DataFetcher)
  (indices : list Z) (rows : list (string * rates)) :
  Forall2 (fun i row =>
     Calendar.date_string now i = Ok (fst row)
     /\ exists data, Py.getitem cache (fst row) = Ok data
          /\ day_rates (currencies f) data = Ok (snd row))
    indices rows ->
  forall acc,
    days_loop upstream now indices cache acc f
    = (Ok (cache, (acc ++ rows)%list), f).
Proof.
  induction 1 as [|i row l l' [Hd [data [Hg Hr]]] F IH]; intros acc.
  - simpl. now rewrite app_nil_r.
  - cbn [days_loop]. unfold bind. rewrite day_body_cases, Hd.
    rewrite (getitem_contains _ _ _ Hg), Hg, Hr.
    rewrite IH. rewrite <- app_assoc. now destruct row.
Qed.

Lemma days_loop_no_request (now : N) (cache : json) (indices : list Z) :
  Forall (fun i => exists date_, Calendar.date_string now i = Ok date_
                     /\ Py.contains date_ cache = Ok true) indices ->
  forall acc f,
    requests (snd (days_loop upstream now indices cache acc f)) = requests f
    /\ match fst (days_loop upstream now indices cache acc f) with
       | Ok (cache', _) => cache' = cache
       | Raise _ => True
       end.
Proof.
  induction 1 as [|i l [date_ [Hd Hc]] F IH]; intros acc f.
  - simpl. now split.
  - cbn [days_loop]. unfold bind. rewrite day_body_cases, Hd, Hc.
    destruct (Py.getitem cache date_) as [data|e]; [|now split].
    destruct (day_rates (currencies f) data) as [day|e]; [|now split].
    apply IH.
Qed.

(** After a call that returned, the same call again is served from the
    cache: it returns the same headers and table and leaves the fetcher, its
    list of requests and the cache file included, exactly as it was. *)
Theorem repeated_call_is_served_from_cache :
  forall (now : N) (days : Z) (f : DataFetcher) (headers : list string)
    (table : list (string * rates)),
    fst (get_exchanges upstream now days f) = Ok (headers, table) ->
    get_exchanges upstream now days (snd (get_exchanges upstream now days f))
    = (Ok (headers, table), snd (get_exchanges upstream now days f)).
Proof.
  intros now days f headers table Hok.
  destruct (loaded (cache_file f)) as [c0|e] eqn:Hl.
  2:{ rewrite get_exchanges_unfold, Hl in Hok. discriminate. }
  destruct (get_exchanges_post upstream now days f c0 Hl)
    as [new [r [_ [Hp Hr]]]].
  destruct r as [[c' table']|e]; destruct Hr as [Hfst Hfile];
    rewrite Hfst in Hok; [|discriminate].
  injection Hok as <- <-.
  destruct Hp as [_ [_ [_ [_ [rows [Hrows F]]]]]]. simpl in Hrows. subst rows.
  set (f1 := snd (get_exchanges upstream now days f)) in *.
  assert (Hcur : currencies f1 = currencies f).
  { unfold f1. rewrite get_exchanges_unfold, Hl.
    pose proof (days_loop_frame upstream now (range days) c0 [] f) as [_ [B _]].
    destruct (days_loop upstream now (range days) c0 [] f)
      as [[[c2 t2]|e2] f2]; simpl in *; assumption. }
  rewrite get_exchanges_unfold. unfold loaded. rewrite Hfile.
  rewrite <- Hcur in F.
  rewrite (days_loop_cached now c' f1 (range days) table' F []).
  cbn [app]. rewrite Hcur. f_equal.
  destruct f1 as [bu cs cf rq]. cbn [cache_file] in Hfile. subst cf.
  reflexivity.
Qed.

(** After a call that returned, a later call for the same days makes no
    request, whatever currencies are tracked by then. *)
Theorem cached_days_need_no_request :
  forall (now : N) (days : Z) (f g : DataFetcher) (headers : list string)
    (table : list (string * rates)),
    fst (get_exchanges upstream now days f) = Ok (headers, table) ->
    cache_file g = cache_file (snd (get_exchanges upstream now days f)) ->
    requests (snd (get_exchanges upstream now days g)) = requests g
    /\ cache_file (snd (get_exchanges upstream now days g)) = cache_file g.
Proof.
  intros now days f g headers table Hok Hg.
  destruct (loaded (cache_file f)) as [c0|e] eqn:Hl.
  2:{ rewrite get_exchanges_unfold, Hl in Hok. discriminate. }
  destruct (get_exchanges_post upstream now days f c0 Hl)
    as [new [r [_ [Hp Hr]]]].
  destruct r as [[c' table']|e]; destruct Hr as [Hfst Hfile];
    rewrite Hfst in Hok; [|discriminate].
  destruct Hp as [_ [_ [_ [_ [rows [_ F]]]]]].
  assert (Hall : Forall (fun i => exists date_,
                   Calendar.date_string now i = Ok date_
                   /\ Py.contains date_ c' = Ok true) (range days)).
  { clear - F. induction F as [|i row l l' [Hd [data [Hgi _]]] F IH];
      constructor; [|assumption].
    exists (fst row). split; [assumption|]. eapply getitem_contains.
    eassumption. }
  rewrite Hfile in Hg.
  rewrite get_exchanges_unfold. unfold loaded. rewrite Hg.
  destruct (days_loop_no_request now c' (range days) Hall [] g) as [Hreq Hc].
  pose proof (days_loop_frame upstream now (range days) c' [] g) as [_ [_ C]].
  destruct (days_loop upstream now (range days) c' [] g)
    as [[[c2 t2]|e2] g1]; cbn [fst snd] in *.
  - subst c2. split; [assumption | reflexivity].
  - split; [assumption|]. rewrite C. exact Hg.
Qed.

End RequestFacts.

Lemma repeated_call_is_served_from_cache_witness :
  let f1 := snd (get_exchanges Sample.healthy Sample.now 3
                   (init_fetcher BASE_URL Missing)) in
  requests (snd (get_exchanges Sample.healthy Sample.now 3 f1)) = requests f1.
Proof.
  intros f1.
  pose (table := match fst (get_exchanges Sample.healthy Sample.now 3
                              (init_fetcher BASE_URL Missing)) with
                 | Ok p => snd p
                 | Raise _ => []
                 end).
  subst f1.
  rewrite (repeated_call_is_served_from_cache Sample.healthy Sample.now 3
             (init_fetcher BASE_URL Missing) ["USD"; "EUR"] table).
  - reflexivity.
  - vm_compute. reflexivity.
Defined.

Lemma cached_days_need_no_request_witness :
  let f1 := snd (get_exchanges Sample.healthy Sample.now 3
                   (init_fetcher BASE_URL Missing)) in
  let g := snd (add_currency "GBP" f1) in
  requests (snd (get_exchanges Sample.healthy Sample.now 3 g)) = requests g.
Proof.
  intros f1 g.
  pose (table := match fst (get_exchanges Sample.healthy Sample.now 3
                              (init_fetcher BASE_URL Missing)) with
                 | Ok p => snd p
                 | Raise _ => []
                 end).
  apply (cached_days_need_no_request Sample.healthy Sample.now 3
           (init_fetcher BASE_URL Missing) g ["USD"; "EUR"] table).
  - vm_compute. reflexivity.
  - reflexivity.
Defined.

(** ** The registry *)

Lemma set_discard_absent (w : ws) (l : list ws) :
  ws_in w l = false -> set_discard w l = l.
Proof.
  unfold ws_in, set_discard. induction l as [|x l IH]; simpl; [reflexivity|].
  destruct (ws_eqb w x); simpl; [discriminate|].
  intros H. now rewrite IH.
Qed.

Lemma set_discard_last (w : ws) (l : list ws) :
  ws_in w l = false -> set_discard w (l ++ [w]) = l.
Proof.
  intros H. unfold set_discard. rewrite filter_app.
  fold (set_discard w l). rewrite (set_discard_absent w l H).
  simpl. unfold ws_eqb. rewrite Nat.eqb_refl. simpl. apply app_nil_r.
Qed.

Lemma ws_in_last (w : ws) (l : list ws) : ws_in w (l ++ [w]) = true.
Proof.
  unfold ws_in. rewrite existsb_app. simpl. unfold ws_eqb.
  rewrite Nat.eqb_refl. simpl. apply orb_true_r.
Qed.

(** Registering a connection that is not registered yet gives it the
    generated name and puts it last; unregistering it then gives back the
    server one started from; and unregistering a connection that is not
    registered raises [KeyError] and changes nothing. *)
Theorem register_then_unregister :
  forall (full_name : string) (w : ws) (s : Server),
    ws_in w (clients s) = false ->
    let w' := mkWs (ws_id w) full_name (remote_address w) in
    register full_name w s = (Ok w', set_clients (clients s ++ [w']) s)
    /\ unregister w' (snd (register full_name w s)) = (Ok tt, s)
    /\ unregister w s = (Raise KeyError, s).
Proof.
  intros full_name w s Hw w'.
  assert (Hw' : ws_in w' (clients s) = false) by exact Hw.
  assert (Hreg : register full_name w s
                 = (Ok w', set_clients (clients s ++ [w']) s)).
  { unfold register. fold w'. now rewrite Hw'. }
  split; [exact Hreg|]. split.
  - rewrite Hreg. cbn [snd]. unfold unregister. cbn [clients set_clients].
    rewrite ws_in_last, (set_discard_last w' (clients s) Hw').
    destruct s; reflexivity.
  - unfold unregister. now rewrite Hw.
Qed.

Lemma register_then_unregister_witness :
  unregister (mkWs 4 "Dora Black" "10.0.0.4:5004")
    (snd (register "Dora Black" Sample.dave (Sample.server Missing)))
  = (Ok tt, Sample.server Missing).
Proof.
  apply (register_then_unregister "Dora Black" Sample.dave
           (Sample.server Missing)).
  reflexivity.
Defined.

(** ** A registration during a broadcast *)

Lemma send_loop_size_changed (env : nat -> list reg_event) (message : string)
  (used remaining pos : nat) (s : Server) :
  Nat.eqb (List.length (clients s)) used = false ->
  send_loop env message used remaining pos s = (Raise RuntimeError, s).
Proof.
  intros H. destruct remaining; simpl; now rewrite H.
Qed.

(** Whatever the registry holds, if a connection that is not registered
    joins while the first send of a broadcast is awaited, the broadcast ends
    there with [RuntimeError]: only the first client has been sent the
    message.  (When the first client has closed, its send raises and nothing
    is sent at all.) *)
Theorem join_during_first_send :
  forall (env : nat -> list reg_event) (message : string) (s : Server)
    (first d : ws) (others : list ws),
    clients s = first :: others ->
    ws_in d (clients s) = false ->
    env 0%nat = [Joins d] ->
    send_to_clients env message s
    = match closed_how first s with
      | None =>
          (Raise RuntimeError,
           mkServer (clients s ++ [d]) (fetcher s) (log_exchange_file s)
             (sent s ++ [(first, message)])%list (error_log s) (closed s))
      | Some true => (Raise ConnectionClosedOK, s)
      | Some false => (Raise ConnectionClosedError, s)
      end.
Proof.
  intros env message s first d others Hc Hd He.
  unfold send_to_clients. rewrite Hc. rewrite <- Hc.
  assert (Hlen : List.length (clients s) = S (List.length others))
    by now rewrite Hc.
  rewrite Hlen. cbn [send_loop]. rewrite Hlen, Nat.eqb_refl.
  rewrite Hc at 1. cbn [nth_error]. unfold client_send.
  destruct (closed_how first s) as [[|]|]; try reflexivity.
  unfold send, modify. rewrite He.
  cbn [apply_events fold_left apply_event clients set_clients].
  unfold set_add. rewrite Hd.
  assert (Hne : Nat.eqb (List.length (clients s ++ [d])) (S (List.length others))
                = false).
  { apply Nat.eqb_neq. rewrite length_app, Hlen. simpl. lia. }
  apply send_loop_size_changed. exact Hne.
Qed.

Lemma join_during_first_send_witness :
  fst (send_to_clients Sample.dave_joins "Alice Smith: hello"
         (Sample.server Missing))
  = Raise RuntimeError.
Proof.
  rewrite (join_during_first_send Sample.dave_joins "Alice Smith: hello"
             (Sample.server Missing) Sample.alice Sample.dave
             [Sample.bob; Sample.carol]); reflexivity.
Defined.

(** ** Effects of a message on the fetcher and the logs *)

Lemma add_currency_requests (code : string) (f : DataFetcher) :
  requests (snd (add_currency code f)) = requests f.
Proof.
  unfold add_currency. destruct (str_in code ALL_CURRENCIES); [|reflexivity].
  destruct (negb (str_in code (currencies f))); reflexivity.
Qed.

Lemma remove_currency_requests (code : string) (f : DataFetcher) :
  requests (snd (remove_currency code f)) = requests f.
Proof.
  unfold remove_currency. destruct (str_in code (currencies f)); reflexivity.
Qed.


Lemma few_requests_none (f f' : DataFetcher) :
  requests f' = requests f -> few_requests f f'.
Proof.
  intros H. exists []. rewrite app_nil_r. split; [assumption|].
  split; [constructor | simpl; lia].
Qed.

Section MessageFacts.

Variable upstream : string -> response.
Variable template :
  list string -> list (string * rates) -> list string -> Z -> string.

Lemma exchange_command_effects (now : N) (w : ws) (line : string)
  (s : Server) :
  let s1 := snd (exchange_command upstream template now w line s) in
  log_exchange_file s1 = log_exchange_file s
  /\ few_requests (fetcher s) (fetcher s1).
Proof.
  unfold exchange_command.
  destruct ((2 <? List.length (PyStr.split line))%nat
            && String.eqb (PyStr.lower (nth 1 (PyStr.split line) "")) "add").
  { unfold bind, on_fetcher.
    pose proof (add_currency_requests
                  (PyStr.upper (nth 2 (PyStr.split line) "")) (fetcher s)) as H.
    destruct (add_currency (PyStr.upper (nth 2 (PyStr.split line) ""))
                (fetcher s)) as [[msg|e] f1]; simpl in *;
      (split; [reflexivity | now apply few_requests_none]). }
  destruct ((2 <? List.length (PyStr.split line))%nat
            && String.eqb (PyStr.lower (nth 1 (PyStr.split line) "")) "remove").
  { unfold bind, on_fetcher.
    pose proof (remove_currency_requests
                  (PyStr.upper (nth 2 (PyStr.split line) "")) (fetcher s)) as H.
    destruct (remove_currency (PyStr.upper (nth 2 (PyStr.split line) ""))
                (fetcher s)) as [[msg|e] f1]; simpl in *;
      (split; [reflexivity | now apply few_requests_none]). }
  unfold bind, lift, on_fetcher.
  destruct (requested_days (PyStr.split line)) as [days|e] eqn:Hdays.
  2:{ simpl. split; [reflexivity | now apply few_requests_none]. }
  pose proof (requested_days_range _ _ Hdays) as Hd.
  destruct (get_exchanges_requests upstream now days (fetcher s))
    as [new [Hreq [Hnd Hlen]]].
  assert (Hfew : few_requests (fetcher s)
                   (snd (get_exchanges upstream now days (fetcher s)))).
  { exists new. split; [assumption|]. split; [assumption | lia]. }
  destruct (get_exchanges upstream now days (fetcher s))
    as [[[headers table]|e] f1]; simpl in *; now split.
Qed.

(** What one message does to the exchange log and to the requests. *)
Lemma handle_message_effects (env : nat -> list reg_event) (now : N) (w : ws)
  (line : string) (s : Server) :
  let r := fst (handle_message upstream template env now w line s) in
  let s' := snd (handle_message upstream template env now w line s) in
  few_requests (fetcher s) (fetcher s')
  /\ log_exchange_file s'
     = (log_exchange_file s
        ++ match r with
           | Ok _ =>
               if PyStr.startswith line "exchange" then [(w, line)] else []
           | Raise _ => []
           end)%list.
Proof.
  unfold handle_message.
  destruct (PyStr.startswith line "exchange").
  - pose proof (exchange_command_effects now w line s) as [Hlog Hfew].
    unfold try_except_http, bind.
    destruct (exchange_command upstream template now w line s)
      as [[u|e] s1]; cbn [fst snd] in *.
    + simpl. split; [assumption | now rewrite Hlog].
    + destruct e; simpl;
        try (split; [assumption | now rewrite app_nil_r]).
      split; [assumption | now rewrite Hlog].
  - destruct (send_to_clients_frame env (name w ++ ": " ++ line)%string s)
      as [A [B _]].
    destruct (send_to_clients env (name w ++ ": " ++ line)%string s)
      as [[u|e] s1]; cbn [fst snd] in *;
      (split; [apply few_requests_none; now rewrite A
              | now rewrite B, app_nil_r]).
Qed.

(** One message, whatever it is and whatever the state, makes at most ten
    requests to the upstream, and never the same request twice. *)
Theorem at_most_ten_requests_per_message :
  forall (env : nat -> list reg_event) (now : N) (w : ws) (line : string)
    (s : Server),
  exists new,
    requests (fetcher (snd (handle_message upstream template env now w line s)))
    = (requests (fetcher s) ++ new)%list
    /\ NoDup new
    /\ (List.length new <= 10)%nat.
Proof.
  intros env now w line s.
  exact (proj1 (handle_message_effects env now w line s)).
Qed.

(** When the loop over the messages of a connection ends without an
    exception, the exchange log has gained one entry for each message that
    starts with "exchange", in the order of arrival, and none for chat. *)
Theorem exchange_log_records_commands :
  forall (env : nat -> list reg_event) (now : N) (w : ws)
    (messages : list string) (s : Server),
    fst (handle_messages upstream template env now w messages s) = Ok tt ->
    log_exchange_file
      (snd (handle_messages upstream template env now w messages s))
    = (log_exchange_file s
       ++ map (fun m => (w, m))
            (filter (fun m => PyStr.startswith m "exchange") messages))%list.
Proof.
  intros env now w messages. induction messages as [|m rest IH]; intros s.
  - intros _. simpl. now rewrite app_nil_r.
  - cbn [handle_messages]. unfold bind.
    pose proof (handle_message_effects env now w m s) as [_ Hlog].
    destruct (handle_message upstream template env now w m s) as [[u|e] s1];
      cbn [fst snd] in *; [|discriminate].
    intros Hok. rewrite (IH s1 Hok), Hlog. cbn [filter].
    destruct (PyStr.startswith m "exchange"); simpl;
      now rewrite <- app_assoc.
Qed.

(** A message that raises an exception which is not caught leaves no entry
    in the exchange log. *)
Theorem escaped_exception_is_not_logged :
  forall (env : nat -> list reg_event) (now : N) (w : ws) (line : string)
    (s : Server) (e : exn),
    fst (handle_message upstream template env now w line s) = Raise e ->
    log_exchange_file (snd (handle_message upstream template env now w line s))
    = log_exchange_file s.
Proof.
  intros env now w line s e H.
  pose proof (handle_message_effects env now w line s) as [_ Hlog].
  rewrite H in Hlog. cbn zeta in Hlog. rewrite Hlog. apply app_nil_r.
Qed.

(** ** A connection from start to end *)

Lemma register_then_unregister_aux (full_name : string) (w : ws) (s : Server) :
  ws_in w (clients s) = false ->
  let w' := mkWs (ws_id w) full_name (remote_address w) in
  register full_name w s = (Ok w', set_clients (clients s ++ [w']) s)
  /\ set_discard w' (clients s ++ [w']) = clients s.
Proof.
  intros Hw w'.
  assert (Hw' : ws_in w' (clients s) = false) by exact Hw.
  split.
  - unfold register. fold w'. now rewrite Hw'.
  - now apply set_discard_last.
Qed.


Lemma send_loop_quiet_clients (message : string) (used remaining : nat) :
  forall (pos : nat) (s : Server),
    clients (snd (send_loop quiet message used remaining pos s)) = clients s.
Proof.
  induction remaining as [|r IH]; intros pos s; simpl.
  - destruct (Nat.eqb (List.length (clients s)) used); reflexivity.
  - destruct (Nat.eqb (List.length (clients s)) used); [|reflexivity].
    destruct (nth_error (clients s) pos) as [c|]; [|reflexivity].
    unfold client_send. destruct (closed_how c s) as [[|]|]; try reflexivity.
    unfold send, modify. cbn [apply_events quiet fold_left].
    rewrite IH. reflexivity.
Qed.

Lemma handle_message_quiet_frame (now : N) (w : ws) (line : string)
  (s : Server) :
  let s' := snd (handle_message upstream template quiet now w line s) in
  clients s' = clients s /\ exists l, sent s' = (sent s ++ l)%list.
Proof.
  destruct (PyStr.startswith line "exchange") eqn:Hx.
  - destruct (exchange_line_answers_sender upstream template quiet now w line
                s Hx) as [A [l [B _]]].
    split; [exact A | now exists l].
  - unfold handle_message. rewrite Hx.
    destruct (send_to_clients_frame quiet (name w ++ ": " ++ line)%string s)
      as [_ [_ [l [B _]]]].
    split; [|now exists l].
    unfold send_to_clients. destruct (clients s) eqn:E; [simpl; exact E|].
    rewrite <- E. apply send_loop_quiet_clients.
Qed.

Lemma handle_messages_quiet_frame (now : N) (w : ws) (messages : list string) :
  forall s : Server,
    let s' := snd (handle_messages upstream template quiet now w messages s) in
    clients s' = clients s /\ exists l, sent s' = (sent s ++ l)%list.
Proof.
  induction messages as [|m rest IH]; intros s.
  - simpl. split; [reflexivity|]. exists []. now rewrite app_nil_r.
  - cbn [handle_messages]. unfold bind.
    pose proof (handle_message_quiet_frame now w m s) as [A [l B]].
    destruct (handle_message upstream template quiet now w m s)
      as [[u|e] s1]; cbn [fst snd] in *.
    + destruct (IH s1) as [A' [l' B']]. cbv zeta. split; [congruence|].
      exists (l ++ l')%list. rewrite B', B. now rewrite app_assoc.
    + split; [assumption | now exists l].
Qed.

(** A connection that was not registered, handled while nothing else happens
    to the registry: the welcome text is the first thing sent to it; the
    handler ends as the loop over its messages does, except that
    [ConnectionClosedOK] is swallowed; and when the handler ends, with or
    without an exception, the registry is what it was before the
    connection. *)
Theorem ws_handler_cleans_up :
  forall (now : N) (full_name : string) (w : ws) (messages : list string)
    (s : Server),
    ws_in w (clients s) = false ->
    let w' := mkWs (ws_id w) full_name (remote_address w) in
    let s2 := mkServer (clients s ++ [w']) (fetcher s) (log_exchange_file s)
                (sent s ++ [(w', WELCOME)])%list (error_log s) (closed s) in
    let out := ws_handler upstream template quiet now full_name w messages s in
    clients (snd out) = clients s
    /\ fst out
       = match fst (handle_messages upstream template quiet now w' messages s2)
         with
         | Raise ConnectionClosedOK => Ok tt
         | r => r
         end
    /\ exists l, sent (snd out) = (sent s ++ (w', WELCOME) :: l)%list.
Proof.
  intros now full_name w messages s Hw w' s2 out.
  destruct (register_then_unregister_aux full_name w s Hw) as [Hreg Hdis].
  fold w' in Hreg, Hdis.
  unfold out, ws_handler, bind. rewrite Hreg. fold w'.
  unfold try_finally, try_except_closed_ok, bind, send, modify.
  cbn [set_clients clients fetcher log_exchange_file sent error_log closed].
  fold s2.
  pose proof (handle_messages_quiet_frame now w' messages s2) as [A [l B]].
  destruct (handle_messages upstream template quiet now w' messages s2)
    as [r s3]; cbn [fst snd] in *.
  assert (Hun : unregister w' s3 = (Ok tt, set_clients (clients s) s3)).
  { unfold unregister. rewrite A. cbn [clients s2].
    now rewrite ws_in_last, Hdis. }
  assert (Hsent : sent s3 = (sent s ++ (w', WELCOME) :: l)%list).
  { rewrite B. cbn [sent s2]. now rewrite <- app_assoc. }
  destruct r as [u|e]; [|destruct e]; cbn [fst snd]; rewrite Hun;
    cbn [fst snd clients set_clients sent];
    (split; [reflexivity|]; split; [try reflexivity; now destruct u|]);
    now exists l.
Qed.

End MessageFacts.

Lemma exchange_log_records_commands_witness :
  log_exchange_file
    (snd (handle_messages Sample.healthy Sample.template quiet Sample.now
            Sample.alice ["hello"; "exchange add gbp"; "bye"; "exchange 2"]
            (Sample.server Missing)))
  = [(Sample.alice, "exchange add gbp"); (Sample.alice, "exchange 2")].
Proof.
  rewrite (exchange_log_records_commands Sample.healthy Sample.template quiet
             Sample.now Sample.alice
             ["hello"; "exchange add gbp"; "bye"; "exchange 2"]
             (Sample.server Missing)).
  - reflexivity.
  - vm_compute. reflexivity.
Defined.

Lemma escaped_exception_is_not_logged_witness :
  log_exchange_file
    (snd (handle_message Sample.upstream Sample.template quiet Sample.now
            Sample.alice "exchange" (Sample.server Undecodable)))
  = [].
Proof.
  apply (escaped_exception_is_not_logged Sample.upstream Sample.template quiet
           Sample.now Sample.alice "exchange" (Sample.server Undecodable)
           JSONDecodeError).
  vm_compute. reflexivity.
Defined.

Lemma ws_handler_cleans_up_witness :
  clients (snd (ws_handler Sample.upstream Sample.template quiet Sample.now
                  "Dora Black" Sample.dave ["hello"; "exchange"]
                  (Sample.server Undecodable)))
  = [Sample.alice; Sample.bob; Sample.carol].
Proof.
  apply (ws_handler_cleans_up Sample.upstream Sample.template Sample.now
           "Dora Black" Sample.dave ["hello"; "exchange"]
           (Sample.server Undecodable)).
  reflexivity.
Defined.

(** ** Sequences of messages *)


Section SequenceFacts.

Variable upstream : string -> response.
Variable template :
  list string -> list (string * rates) -> list string -> Z -> string.



End SequenceFacts.



(** ** A failing fetch *)


Section FailureFacts.

Variable upstream : string -> response.
Variable template :
  list string -> list (string * rates) -> list string -> Z -> string.





End FailureFacts.



(** C2: the code at a numeric token of 4301 digits.  The token passes
    [isdigit], [int] raises [ValueError], which is not caught: no table is
    returned, nothing is sent and nothing is logged. *)
Lemma exchange_long_numeral_raises :
  PyStr.isdigit (Sample.nines 4301) = true
  /\ handle_message Sample.healthy Sample.template quiet Sample.now
       Sample.alice ("exchange " ++ Sample.nines 4301) (Sample.server Missing)
     = (Raise ValueError, Sample.server Missing).
Proof.
  split; vm_compute; reflexivity.
Qed.

(** C4, as stated, fails when two cycles interleave.  With no cache file, a
    call for one day loads the empty store and is suspended in its request;
    a call for two days runs meanwhile and saves 3 and 2 November; the first
    call then saves the store it had loaded with 3 November alone: the entry
    of 2 November, in the file a moment before, is gone. *)
Lemma interleaved_cycles_lose_entries :
  let f0 := init_fetcher BASE_URL Missing in
  let after_second := snd (get_exchanges Sample.healthy Sample.now 2 f0) in
  let out := second_call_inside_first Sample.healthy Sample.now 1 2 f0 in
  store_has "02.11.2026" after_second = Ok true
  /\ (exists r, fst out = Ok r)
  /\ store_has "03.11.2026" (snd out) = Ok true
  /\ store_has "02.11.2026" (snd out) = Ok false.
Proof.
  split; [vm_compute; reflexivity|].
  split; [eexists; vm_compute; reflexivity|].
  split; vm_compute; reflexivity.
Qed.

(** ** A closed client in the set *)

Lemma send_loop_stops_at_closed (message : string) (c : ws) (ok : bool)
  (after : list ws) (before : list ws) :
  forall (pos remaining : nat) (s : Server),
    skipn pos (clients s) = (before ++ c :: after)%list ->
    List.length (clients s) = (pos + remaining)%nat ->
    (forall x, In x before -> closed_how x s = None) ->
    closed_how c s = Some ok ->
    send_loop quiet message (List.length (clients s)) remaining pos s
    = (Raise (if ok then ConnectionClosedOK else ConnectionClosedError),
       mkServer (clients s) (fetcher s) (log_exchange_file s)
         (sent s ++ map (fun x => (x, message)) before)%list
         (error_log s) (closed s)).
Proof.
  induction before as [|b before IH]; intros pos remaining s Hskip Hlen Hopen Hc.
  - assert (Hn : nth_error (clients s) pos = Some c).
    { rewrite <- (firstn_skipn pos (clients s)) at 1.
      assert (Hp : (pos <= List.length (clients s))%nat) by lia.
      rewrite nth_error_app2 by (rewrite length_firstn; lia).
      rewrite length_firstn, Nat.min_l by lia.
      rewrite Nat.sub_diag, Hskip. reflexivity. }
    destruct remaining as [|r].
    { assert (H : nth_error (clients s) pos <> None) by congruence.
      apply nth_error_Some in H. lia. }
    simpl. rewrite Nat.eqb_refl, Hn. unfold client_send. rewrite Hc.
    rewrite app_nil_r. destruct s, ok; reflexivity.
  - assert (Hn : nth_error (clients s) pos = Some b).
    { rewrite <- (firstn_skipn pos (clients s)) at 1.
      rewrite nth_error_app2 by (rewrite length_firstn; lia).
      rewrite length_firstn, Nat.min_l by lia.
      rewrite Nat.sub_diag, Hskip. reflexivity. }
    destruct remaining as [|r].
    { assert (nth_error (clients s) pos <> None) by congruence.
      apply nth_error_Some in H. lia. }
    simpl. rewrite Nat.eqb_refl, Hn. unfold client_send.
    rewrite (Hopen b (or_introl eq_refl)).
    unfold send, modify. cbn [apply_events quiet fold_left].
    set (s1 := mkServer (clients s) (fetcher s) (log_exchange_file s)
                 (sent s ++ [(b, message)])%list (error_log s) (closed s)).
    change (List.length (clients s)) with (List.length (clients s1)).
    rewrite (IH (S pos) r s1).
    + simpl. now rewrite <- app_assoc.
    + cbn [clients s1]. rewrite (skipn_nth_error _ _ _ Hn) in Hskip.
      simpl in Hskip. now injection Hskip.
    + simpl. lia.
    + intros x Hx. apply (Hopen x). now right.
    + exact Hc.
Qed.

(** When a client of the set has closed and nothing else happens, a
    broadcast reaches the clients that come before it in the iteration, then
    ends with the exception of the send to the closed client: that client and
    those after it get nothing. *)
Theorem closed_client_stops_broadcast :
  forall (message : string) (s : Server) (before after : list ws) (c : ws)
    (ok : bool),
    clients s = (before ++ c :: after)%list ->
    (forall x, In x before -> closed_how x s = None) ->
    closed_how c s = Some ok ->
    send_to_clients quiet message s
    = (Raise (if ok then ConnectionClosedOK else ConnectionClosedError),
       mkServer (clients s) (fetcher s) (log_exchange_file s)
         (sent s ++ map (fun x => (x, message)) before)%list
         (error_log s) (closed s)).
Proof.
  intros message s before after c ok Hcl Hopen Hc.
  unfold send_to_clients.
  destruct (clients s) as [|x l] eqn:E.
  { destruct before; discriminate Hcl. }
  rewrite <- E.
  apply (send_loop_stops_at_closed message c ok after before 0%nat
           (List.length (clients s)) s); auto.
  simpl. now rewrite E.
Qed.

(** Bob has closed: Alice's message reaches Alice and stops at Bob. *)
Lemma closed_client_stops_broadcast_witness :
  send_to_clients quiet "Alice Smith: hello"
    (mkServer [Sample.alice; Sample.bob; Sample.carol]
       (init_fetcher BASE_URL Missing) [] [] [] [(Sample.bob, false)])
  = (Raise ConnectionClosedError,
     mkServer [Sample.alice; Sample.bob; Sample.carol]
       (init_fetcher BASE_URL Missing) []
       [(Sample.alice, "Alice Smith: hello")] [] [(Sample.bob, false)]).
Proof.
  apply (closed_client_stops_broadcast "Alice Smith: hello"
           (mkServer [Sample.alice; Sample.bob; Sample.carol]
              (init_fetcher BASE_URL Missing) [] [] [] [(Sample.bob, false)])
           [Sample.alice] [Sample.carol] Sample.bob false).
  - reflexivity.
  - intros x [<-|[]]. reflexivity.
  - reflexivity.
Defined.
